(** * Dashboard webhook cog: a shallow embedding of [cogs/dashboard_webhook.py]

    The cog relays direct messages to a dashboard with one HTTP POST and
    offers two administrator commands.  Its coroutines are embedded as
    functions into a small monad that records the calls the coroutine
    makes to its collaborators (logger, HTTP session, command context) and
    either returns a value or raises a Python exception.  What the
    collaborators answer is an explicit argument of each coroutine. *)

From Stdlib Require Import ZArith String Ascii List Bool DecimalString DecimalZ Lia.
Import ListNotations.
Open Scope string_scope.
Open Scope Z_scope.
Set Warnings "-register-all".

(** ** Python strings

    A [str] is kept as its UTF-8 bytes.  Truthiness, [str(int)], slicing by
    code points and [str.replace] are the operations the cog uses. *)

Definition truthy_str (s : string) : bool := negb (s =? "")%string.

Definition str_int (n : Z) : string := NilZero.string_of_int (Z.to_int n).

(** A byte [10xxxxxx] continues the code point opened by an earlier byte. *)
Definition is_continuation (c : ascii) : bool :=
  let b := N_of_ascii c in ((128 <=? b) && (b <? 192))%N.

(** [s[:n]]: the first [n] code points of [s]. *)
Fixpoint slice_to (n : nat) (s : string) : string :=
  match s with
  | EmptyString => EmptyString
  | String c rest =>
      if is_continuation c then String c (slice_to n rest)
      else match n with
           | O => EmptyString
           | S k => String c (slice_to k rest)
           end
  end.

(** [s.replace(old, new)] for a non-empty [old]: every occurrence, left to
    right, without overlap.  [skip] counts the bytes of a matched
    occurrence that are still to be dropped. *)
Fixpoint replace_from (old new : string) (skip : nat) (s : string) : string :=
  match s with
  | EmptyString => EmptyString
  | String c rest =>
      match skip with
      | S k => replace_from old new k rest
      | O =>
          if prefix old s
          then new ++ replace_from old new (String.length old - 1) rest
          else String c (replace_from old new O rest)
      end
  end.

Definition str_replace (s old new : string) : string := replace_from old new O s.

(** ** Python values

    The values [json.loads] produces, which are also the values of the
    dict literals the cog builds.  A float is kept as its literal. *)

Inductive PyVal : Type :=
| PyNone
| PyBool (b : bool)
| PyInt (n : Z)
| PyFloat (literal : string)
| PyStr (s : string)
| PyList (items : list PyVal)
| PyDict (items : list (string * PyVal)).

Definition type_name (v : PyVal) : string :=
  match v with
  | PyNone => "NoneType"
  | PyBool _ => "bool"
  | PyInt _ => "int"
  | PyFloat _ => "float"
  | PyStr _ => "str"
  | PyList _ => "list"
  | PyDict _ => "dict"
  end.

Fixpoint dict_lookup (key : string) (items : list (string * PyVal)) : option PyVal :=
  match items with
  | [] => None
  | (k, v) :: rest => if (k =? key)%string then Some v else dict_lookup key rest
  end.

(** ** Exceptions

    An exception is known to the cog through the [except] clauses it can
    match and through [str(e)].  The values of this type are instances of
    [Exception]; [asyncio.TimeoutError] and [aiohttp.ClientError] are the
    two subclasses the cog tells apart (aiohttp's [ServerTimeoutError]
    derives from both). *)

Inductive ExcType : Type := TimeoutError | ClientError | Exception.

Record Exc : Type := mkExc {
  exc_is_timeout : bool;
  exc_is_client_error : bool;
  exc_str : string
}.

Definition isinstance (e : Exc) (c : ExcType) : bool :=
  match c with
  | TimeoutError => exc_is_timeout e
  | ClientError => exc_is_client_error e
  | Exception => true
  end.

Definition asyncio_TimeoutError : Exc := mkExc true false "".
Definition ServerTimeoutError (msg : string) : Exc := mkExc true true msg.
Definition ClientConnectorError (msg : string) : Exc := mkExc false true msg.
Definition ContentTypeError (msg : string) : Exc := mkExc false true msg.
Definition JSONDecodeError (msg : string) : Exc := mkExc false false msg.
Definition UnicodeDecodeError (msg : string) : Exc := mkExc false false msg.
Definition RuntimeError (msg : string) : Exc := mkExc false false msg.
Definition AttributeError (msg : string) : Exc := mkExc false false msg.

Definition no_attribute (type attr : string) : Exc :=
  AttributeError ("'" ++ type ++ "' object has no attribute '" ++ attr ++ "'").

(** ** The host's objects (discord.py), as far as the cog reads them *)

Module Asset.
Record t : Type := make { url : string }.
(** [Asset.__len__] is the length of the URL, which decides truthiness. *)
Definition truthy (a : t) : bool := truthy_str (url a).
End Asset.

Module User.
Record t : Type := make {
  id : Z;
  bot : bool;
  str : string;                 (* str(user) *)
  avatar : option Asset.t;
  default_avatar : Asset.t
}.
End User.

Module Attachment.
Record t : Type := make {
  url : string;
  filename : string;
  content_type : option string;
  size : Z
}.
End Attachment.

Inductive Channel : Type :=
| DMChannel | GroupChannel | TextChannel | VoiceChannel | Thread.

Definition isinstance_DMChannel (c : Channel) : bool :=
  match c with DMChannel => true | _ => false end.

Module Message.
Record t : Type := make {
  id : Z;
  author : User.t;
  channel : Channel;
  content : string;
  attachments : list Attachment.t
}.
End Message.

Module Context.
Record t : Type := make {
  author : User.t;
  message : Message.t;
  valid : bool
}.
End Context.

(** [blocked_users] is an optional attribute of the bot; of the container
    behind it the cog uses the membership test only. *)
Module Bot.
Record t : Type := make {
  config : list (string * string);
  get_context : Message.t -> Context.t;
  blocked_users : option (Z -> bool)
}.
End Bot.

Record ClientSession : Type := { closed : bool }.

Inductive Colour : Type := blurple.

Record EmbedField : Type := {
  field_name : string;
  field_value : string;
  field_inline : bool
}.

Record Embed : Type := {
  title : string;
  color : Colour;
  timestamp : Z;
  fields : list EmbedField
}.

Definition add_field (embed : Embed) (name value : string) (inline : bool) : Embed :=
  {| title := title embed;
     color := color embed;
     timestamp := timestamp embed;
     fields := (fields embed ++ [ {| field_name := name; field_value := value; field_inline := inline |} ])%list |}.

(** ** Calls and their record *)

Inductive Level : Type := INFO | WARNING | ERROR.

(** The arguments of one [send_to_dashboard] call. *)
Record DeliverArgs : Type := {
  discord_user_id : string;
  discord_username : string;
  content : string;
  discord_avatar_url : option string;
  discord_message_id : option string;
  attachments : option (list PyVal)
}.

Inductive Event : Type :=
| Deliver (args : DeliverArgs)                        (* send_to_dashboard is entered *)
| Logged (level : Level) (msg : string) (exc_info : bool)
| Post (url : string) (json : PyVal) (headers : list (string * string)) (timeout_total : Z)
| Get (url : string) (timeout_total : Z)
| SendText (text : string)                            (* ctx.send(text) *)
| SendEmbed (embed : Embed).                          (* ctx.send(embed=embed) *)

Inductive Completion (A : Type) : Type :=
| Returned (a : A)
| Raised (e : Exc).
Arguments Returned {A} a.
Arguments Raised {A} e.

Definition M (A : Type) : Type := (list Event * Completion A)%type.

Definition ret {A : Type} (a : A) : M A := ([], Returned a).
Definition raise {A : Type} (e : Exc) : M A := ([], Raised e).
Definition emit (ev : Event) : M unit := ([ev], Returned tt).

Definition bind {A B : Type} (m : M A) (k : A -> M B) : M B :=
  match m with
  | (t, Raised e) => (t, Raised e)
  | (t, Returned a) => let (t', r) := k a in ((t ++ t')%list, r)
  end.

Notation "x <- m ;; k" := (bind m (fun x => k))
  (at level 61, m at next level, right associativity).
Notation "m ;; k" := (bind m (fun _ => k))
  (at level 61, right associativity).

(** [try: body except C1 as e: h1 except C2 as e: h2 ...]: the first clause
    whose class the exception is an instance of handles it. *)
Definition try_except {A : Type} (body : M A) (clauses : list (ExcType * (Exc -> M A))) : M A :=
  match body with
  | (t, Returned a) => (t, Returned a)
  | (t, Raised e) =>
      match find (fun cl => isinstance e (fst cl)) clauses with
      | Some cl => let (t', r) := snd cl e in ((t ++ t')%list, r)
      | None => (t, Raised e)
      end
  end.

Definition trace {A : Type} (m : M A) : list Event := fst m.
Definition completion {A : Type} (m : M A) : Completion A := snd m.

Definition log (level : Level) (msg : string) (exc_info : bool) : M unit :=
  emit (Logged level msg exc_info).

(** ** The transport layer (aiohttp)

    What the remote side and the network do is given by a behaviour: the
    request raises, or a response arrives, whose body is then read with
    [json()] or [text()], each of which can raise on its own (the total
    timeout also runs while the body is read). *)

Record Response : Type := {
  status : Z;
  json_body : Exc + PyVal;       (* await response.json() *)
  text_body : Exc + string       (* await response.text() *)
}.

Inductive Behaviour : Type :=
| Raises (e : Exc)
| Responds (r : Response).

Definition await_body {A : Type} (b : Exc + A) : M A :=
  match b with
  | inl e => raise e
  | inr a => ret a
  end.

Definition session_post (net : Behaviour) (url : string) (json : PyVal)
    (headers : list (string * string)) (timeout_total : Z) : M Response :=
  emit (Post url json headers timeout_total) ;;
  match net with
  | Raises e => raise e
  | Responds r => ret r
  end.

(** [self.session.get(...)]: on [None] the attribute lookup fails before
    anything is requested. *)
Definition session_get (session : option ClientSession) (net : Behaviour)
    (url : string) (timeout_total : Z) : M Response :=
  match session with
  | None => raise (no_attribute "NoneType" "get")
  | Some _ =>
      emit (Get url timeout_total) ;;
      match net with
      | Raises e => raise e
      | Responds r => ret r
      end
  end.

(** ** The cog *)

Record DashboardWebhook : Type := {
  bot : Bot.t;
  session : option ClientSession;
  webhook_url : string;
  webhook_secret : string
}.

(** [config.get(key, default)] *)
Fixpoint config_get (config : list (string * string)) (key default : string) : string :=
  match config with
  | [] => default
  | (k, v) :: rest => if (k =? key)%string then v else config_get rest key default
  end.

Definition default_webhook_url : string :=
  "https://qlnbergwjfrmgkjhrbkj.supabase.co/functions/v1/discord-modmail-webhook".

Definition __init__ (bot : Bot.t) : DashboardWebhook :=
  {| bot := bot;
     session := None;
     webhook_url := config_get (Bot.config bot) "dashboard_webhook_url" default_webhook_url;
     webhook_secret := config_get (Bot.config bot) "dashboard_webhook_secret" "" |}.

Definition with_session (self : DashboardWebhook) (s : option ClientSession) : DashboardWebhook :=
  {| bot := bot self; session := s;
     webhook_url := webhook_url self; webhook_secret := webhook_secret self |}.

Definition cog_load (self : DashboardWebhook) : DashboardWebhook * M unit :=
  (with_session self (Some {| closed := false |}),
   log INFO "DashboardWebhook cog loaded - forwarding DMs to admin dashboard" false).

Definition cog_unload (self : DashboardWebhook) : DashboardWebhook * M unit :=
  (match session self with
   | Some _ => with_session self (Some {| closed := true |})
   | None => self
   end,
   log INFO "DashboardWebhook cog unloaded" false).

(** The return annotation is [Optional[str]]. *)
Definition _get_avatar_url (user : User.t) : option string :=
  match User.avatar user with
  | Some a =>
      if Asset.truthy a then Some (Asset.url a)
      else Some (Asset.url (User.default_avatar user))
  | None => Some (Asset.url (User.default_avatar user))
  end.

(** [x or default] on an optional string. *)
Definition str_or (x : option string) (default : string) : string :=
  match x with
  | Some s => if truthy_str s then s else default
  | None => default
  end.

Definition _format_attachments (attachments : list Attachment.t) : list PyVal :=
  map (fun att =>
         PyDict [ ("url", PyStr (Attachment.url att));
                  ("filename", PyStr (Attachment.filename att));
                  ("content_type",
                   PyStr (str_or (Attachment.content_type att) "application/octet-stream"));
                  ("size", PyInt (Attachment.size att)) ])
      attachments.

Definition opt_str (x : option string) : PyVal :=
  match x with
  | Some s => PyStr s
  | None => PyNone
  end.

(** [attachments or []] *)
Definition list_or_empty (x : option (list PyVal)) : list PyVal :=
  match x with
  | Some l => l
  | None => []
  end.

Definition payload_of (a : DeliverArgs) : PyVal :=
  PyDict [ ("discord_user_id", PyStr (discord_user_id a));
           ("discord_username", PyStr (discord_username a));
           ("content", PyStr (content a));
           ("discord_avatar_url", opt_str (discord_avatar_url a));
           ("discord_message_id", opt_str (discord_message_id a));
           ("attachments", PyList (list_or_empty (attachments a))) ].

Definition headers_of (self : DashboardWebhook) : list (string * string) :=
  [ ("Content-Type", "application/json");
    ("X-Webhook-Secret", webhook_secret self) ].

(** [result.get(key, default)]: only a dict has the method. *)
Definition dict_get (result : PyVal) (key : string) (default : PyVal) : M PyVal :=
  match result with
  | PyDict items =>
      ret (match dict_lookup key items with Some v => v | None => default end)
  | _ => raise (no_attribute (type_name result) "get")
  end.

Section Cog.

(** The interpreter's [repr] of a decoded JSON value, which an f-string
    uses for every value that is not a [str]. *)
Variable repr : PyVal -> string.

Definition format_value (v : PyVal) : string :=
  match v with
  | PyStr s => s
  | _ => repr v
  end.

Definition send_to_dashboard (self : DashboardWebhook) (args : DeliverArgs)
    (net : Behaviour) : M bool :=
  emit (Deliver args) ;;
  match session self with
  | None =>
      log ERROR "HTTP session not initialized" false ;;
      ret false
  | Some _ =>
      if negb (truthy_str (webhook_url self)) then
        log WARNING "Dashboard webhook URL not configured" false ;;
        ret false
      else
        let payload := payload_of args in
        let headers := headers_of self in
        try_except
          (response <- session_post net (webhook_url self) payload headers 10 ;;
           if status response =? 200 then
             result <- await_body (json_body response) ;;
             ticket <- dict_get result "ticket_id" (PyStr "unknown") ;;
             log INFO ("Successfully forwarded DM to dashboard: "
                       ++ "user=" ++ discord_username args
                       ++ ", ticket=" ++ format_value ticket) false ;;
             ret true
           else
             error_text <- await_body (text_body response) ;;
             log ERROR ("Dashboard webhook failed with status "
                        ++ str_int (status response) ++ ": " ++ error_text) false ;;
             ret false)
          [ (TimeoutError, fun _ =>
               log ERROR "Dashboard webhook request timed out" false ;;
               ret false);
            (ClientError, fun e =>
               log ERROR ("Dashboard webhook request failed: " ++ exc_str e) false ;;
               ret false);
            (Exception, fun e =>
               log ERROR ("Unexpected error sending to dashboard: " ++ exc_str e) true ;;
               ret false) ]
  end.

Definition on_message (self : DashboardWebhook) (message : Message.t)
    (net : Behaviour) : M unit :=
  if User.bot (Message.author message) then ret tt
  else if negb (isinstance_DMChannel (Message.channel message)) then ret tt
  else
    let ctx := Bot.get_context (bot self) message in
    if Context.valid ctx then ret tt
    else
      if match Bot.blocked_users (bot self) with
         | Some contains => contains (User.id (Message.author message))
         | None => false
         end
      then ret tt
      else
        success <- send_to_dashboard self
          {| discord_user_id := str_int (User.id (Message.author message));
             discord_username := User.str (Message.author message);
             content := if truthy_str (Message.content message)
                        then Message.content message else "(No text content)";
             discord_avatar_url := _get_avatar_url (Message.author message);
             discord_message_id := Some (str_int (Message.id message));
             attachments := Some (_format_attachments (Message.attachments message)) |}
          net ;;
        if negb success then
          log WARNING ("Failed to forward DM to dashboard from "
                       ++ User.str (Message.author message)
                       ++ " (ID: " ++ str_int (User.id (Message.author message)) ++ ")") false
        else ret tt.

Definition default_test_message : string := "Test message from bot".

(** [message] is [None] when the caller gave no text, so that the
    parameter's default applies. *)
Definition test_dashboard (self : DashboardWebhook) (ctx : Context.t)
    (message : option string) (net : Behaviour) : M unit :=
  let message := match message with Some m => m | None => default_test_message end in
  success <- send_to_dashboard self
    {| discord_user_id := str_int (User.id (Context.author ctx));
       discord_username := User.str (Context.author ctx) ++ " (TEST)";
       content := "[TEST] " ++ message;
       discord_avatar_url := _get_avatar_url (Context.author ctx);
       discord_message_id := Some (str_int (Message.id (Context.message ctx)));
       attachments := None |}
    net ;;
  if success then
    emit (SendText "✅ Test message sent to dashboard successfully!")
  else
    emit (SendText "❌ Failed to send test message. Check bot logs for details.").

End Cog.

Definition session_active (s : option ClientSession) : bool :=
  match s with
  | Some c => negb (closed c)
  | None => false
  end.

(** [now] is the reading of [datetime.now(timezone.utc)]. *)
Definition dashboard_status (self : DashboardWebhook) (ctx : Context.t)
    (now : Z) (net : Behaviour) : M unit :=
  let embed := {| title := "Dashboard Webhook Status"; color := blurple;
                  timestamp := now; fields := [] |} in
  let embed := add_field embed "Webhook URL"
                 (if truthy_str (webhook_url self)
                  then "```" ++ slice_to 50 (webhook_url self) ++ "...```"
                  else "Not configured") false in
  let embed := add_field embed "Secret Configured"
                 (if truthy_str (webhook_secret self) then "✅ Yes" else "❌ No") true in
  let embed := add_field embed "Session Active"
                 (if session_active (session self) then "✅ Yes" else "❌ No") true in
  embed <-
    (if truthy_str (webhook_url self) then
       try_except
         (response <- session_get (session self) net
                        (str_replace (webhook_url self) "/discord-modmail-webhook" "/health") 5 ;;
          if status response =? 200 then
            ret (add_field embed "Connection Test" "✅ Endpoint reachable" false)
          else
            ret (add_field embed "Connection Test"
                   ("⚠️ Status " ++ str_int (status response)) false))
         [ (Exception, fun e =>
              ret (add_field embed "Connection Test"
                     ("❌ Failed: " ++ slice_to 50 (exc_str e)) false)) ]
     else ret embed) ;;
  emit (SendEmbed embed).

(** ** Observations on a record of calls *)

(** The arguments of the [send_to_dashboard] calls, in order. *)
Fixpoint deliver_calls (t : list Event) : list DeliverArgs :=
  match t with
  | [] => []
  | Deliver a :: rest => a :: deliver_calls rest
  | _ :: rest => deliver_calls rest
  end.

(** The requests handed to the HTTP session. *)
Definition is_transport_call (ev : Event) : bool :=
  match ev with
  | Post _ _ _ _ | Get _ _ => true
  | _ => false
  end.

Definition transport_calls (t : list Event) : list Event := filter is_transport_call t.

(** The health probes: target and timeout of every GET. *)
Fixpoint probes (t : list Event) : list (string * Z) :=
  match t with
  | [] => []
  | Get url timeout_total :: rest => (url, timeout_total) :: probes rest
  | _ :: rest => probes rest
  end.

Fixpoint sent_embeds (t : list Event) : list Embed :=
  match t with
  | [] => []
  | SendEmbed e :: rest => e :: sent_embeds rest
  | _ :: rest => sent_embeds rest
  end.

(** The value of the first field of that name. *)
Fixpoint field_named (name : string) (fs : list EmbedField) : option string :=
  match fs with
  | [] => None
  | f :: rest => if (field_name f =? name)%string then Some (field_value f)
                 else field_named name rest
  end.

(** ** The listener's filter, as the specification words it *)

Definition blocked_origin (b : Bot.t) (m : Message.t) : bool :=
  match Bot.blocked_users b with
  | Some contains => contains (User.id (Message.author m))
  | None => false
  end.

Definition discarded (b : Bot.t) (m : Message.t) : bool :=
  User.bot (Message.author m)
  || negb (isinstance_DMChannel (Message.channel m))
  || Context.valid (Bot.get_context b m)
  || blocked_origin b m.

(** ** Faults at the network boundary, as the specification classifies them *)

(** The exception, if any, that the behaviour [net] makes the body of the
    [try] statement raise. *)
Definition fault_of (net : Behaviour) : option Exc :=
  match net with
  | Raises e => Some e
  | Responds r =>
      if status r =? 200 then
        match json_body r with
        | inl e => Some e
        | inr (PyDict _) => None
        | inr v => Some (no_attribute (type_name v) "get")
        end
      else
        match text_body r with
        | inl e => Some e
        | inr _ => None
        end
  end.

Inductive FailureClass : Type := Timeout | TransportError | InternalError.

Definition classify (e : Exc) : FailureClass :=
  if exc_is_timeout e then Timeout
  else if exc_is_client_error e then TransportError
  else InternalError.

Definition fault_log (e : Exc) : Event :=
  match classify e with
  | Timeout => Logged ERROR "Dashboard webhook request timed out" false
  | TransportError => Logged ERROR ("Dashboard webhook request failed: " ++ exc_str e) false
  | InternalError => Logged ERROR ("Unexpected error sending to dashboard: " ++ exc_str e) true
  end.

Definition bad_status_log (code : Z) (body : string) : Event :=
  Logged ERROR ("Dashboard webhook failed with status " ++ str_int code ++ ": " ++ body) false.

Definition success_log (username token : string) : Event :=
  Logged INFO ("Successfully forwarded DM to dashboard: user=" ++ username
               ++ ", ticket=" ++ token) false.

Definition post_of (self : DashboardWebhook) (args : DeliverArgs) : Event :=
  Post (webhook_url self) (payload_of args) (headers_of self) 10.

(** ** Sample inputs *)

(** A [repr] for the examples: exact on [None], booleans and integers,
    which is all the examples format. *)
Definition scalar_repr (v : PyVal) : string :=
  match v with
  | PyNone => "None"
  | PyBool true => "True"
  | PyBool false => "False"
  | PyInt n => str_int n
  | _ => "..."
  end.

Definition alice : User.t :=
  User.make 42 false "alice" None
    (Asset.make "https://cdn.discordapp.com/embed/avatars/0.png").

Definition dm_from_alice : Message.t :=
  Message.make 7 alice DMChannel ""
    [ Attachment.make "https://cdn.discordapp.com/attachments/1/2/a.bin" "a.bin" None 3 ].

Definition host : Bot.t :=
  Bot.make [] (fun m => Context.make (Message.author m) m false) None.

Definition cog_fresh : DashboardWebhook := __init__ host.
Definition cog_ready : DashboardWebhook := fst (cog_load cog_fresh).

Definition hello_args : DeliverArgs :=
  {| discord_user_id := "42"; discord_username := "alice"; content := "hello";
     discord_avatar_url := None; discord_message_id := None; attachments := None |}.

Definition admin_ctx : Context.t := Context.make alice dm_from_alice true.

Definition quote : string := String "034"%char EmptyString.

(** [200] with the body [{"ticket_id": "T1"}] *)
Definition ticket_response : Response :=
  {| status := 200;
     json_body := inr (PyDict [("ticket_id", PyStr "T1")]);
     text_body := inr ("{" ++ quote ++ "ticket_id" ++ quote ++ ": "
                       ++ quote ++ "T1" ++ quote ++ "}") |}.

(** [500] with the body [oops] *)
Definition oops_response : Response :=
  {| status := 500;
     json_body := inl (JSONDecodeError "Expecting value: line 1 column 1 (char 0)");
     text_body := inr "oops" |}.

(** [200] with the body [null] *)
Definition null_response : Response :=
  {| status := 200; json_body := inr PyNone; text_body := inr "null" |}.

(** [500], after which the body does not arrive within the total timeout *)
Definition stalled_response : Response :=
  {| status := 500; json_body := inl asyncio_TimeoutError;
     text_body := inl asyncio_TimeoutError |}.

(** The record the listener hands to [send_to_dashboard]. *)
Definition record_of (message : Message.t) : DeliverArgs :=
  {| discord_user_id := str_int (User.id (Message.author message));
     discord_username := User.str (Message.author message);
     content := if truthy_str (Message.content message)
                then Message.content message else "(No text content)";
     discord_avatar_url := _get_avatar_url (Message.author message);
     discord_message_id := Some (str_int (Message.id message));
     attachments := Some (_format_attachments (Message.attachments message)) |}.

(** ** The payload mapping, as the specification words it *)

Definition default_content_type : string := "application/octet-stream".

(** The dict an attachment is mapped to; an empty content type counts
    as an absent one. *)
Definition attachment_dict (att : Attachment.t) (d : PyVal) : Prop :=
  d = PyDict
        [ ("url", PyStr (Attachment.url att));
          ("filename", PyStr (Attachment.filename att));
          ("content_type",
           PyStr match Attachment.content_type att with
                 | Some ct => if (ct =? "")%string then default_content_type else ct
                 | None => default_content_type
                 end);
          ("size", PyInt (Attachment.size att)) ].

(** The call or request carries an avatar URL that is a string. *)
Definition avatar_present (ev : Event) : Prop :=
  match ev with
  | Deliver a => exists s, discord_avatar_url a = Some s
  | Post _ (PyDict items) _ _ =>
      exists s, dict_lookup "discord_avatar_url" items = Some (PyStr s)
  | Post _ _ _ _ => False
  | _ => True
  end.

(** The record the test command hands to [send_to_dashboard]. *)
Definition test_record_of (ctx : Context.t) (message : option string) : DeliverArgs :=
  {| discord_user_id := str_int (User.id (Context.author ctx));
     discord_username := User.str (Context.author ctx) ++ " (TEST)";
     content := "[TEST] " ++ match message with
                             | Some m => m
                             | None => default_test_message
                             end;
     discord_avatar_url := _get_avatar_url (Context.author ctx);
     discord_message_id := Some (str_int (Message.id (Context.message ctx)));
     attachments := None |}.

(** ** The status report, as the specification words it *)

Definition with_secret (self : DashboardWebhook) (secret : string) : DashboardWebhook :=
  {| bot := bot self; session := session self;
     webhook_url := webhook_url self; webhook_secret := secret |}.

Definition with_url (self : DashboardWebhook) (url : string) : DashboardWebhook :=
  {| bot := bot self; session := session self;
     webhook_url := url; webhook_secret := webhook_secret self |}.

Definition relay_suffix : string := "/discord-modmail-webhook".
Definition health_suffix : string := "/health".

(** [old] starts at no position of [base] in [base ++ tail]. *)
Fixpoint no_match_before (old base tail : string) : bool :=
  match base with
  | EmptyString => true
  | String _ rest => negb (prefix old (base ++ tail)) && no_match_before old rest tail
  end.

Fixpoint ends_with (s suffix : string) : bool :=
  (s =? suffix)%string ||
  match s with
  | EmptyString => false
  | String _ rest => ends_with rest suffix
  end.

(** The three renderings of the probe. *)
Definition reachable : string := "✅ Endpoint reachable".
Definition status_warning (code : Z) : string := "⚠️ Status " ++ str_int code.
Definition probe_failed (e : Exc) : string := "❌ Failed: " ++ slice_to 50 (exc_str e).

Definition connection_test (net : Behaviour) : string :=
  match net with
  | Responds r => if status r =? 200 then reachable else status_warning (status r)
  | Raises e => probe_failed e
  end.

(** The report with its three configuration fields and [extra] after them. *)
Definition status_embed (self : DashboardWebhook) (now : Z) (extra : list EmbedField) : Embed :=
  {| title := "Dashboard Webhook Status"; color := blurple; timestamp := now;
     fields :=
       [ {| field_name := "Webhook URL";
            field_value := if truthy_str (webhook_url self)
                           then "```" ++ slice_to 50 (webhook_url self) ++ "...```"
                           else "Not configured";
            field_inline := false |};
         {| field_name := "Secret Configured";
            field_value := if truthy_str (webhook_secret self) then "✅ Yes" else "❌ No";
            field_inline := true |};
         {| field_name := "Session Active";
            field_value := if session_active (session self) then "✅ Yes" else "❌ No";
            field_inline := true |} ] ++ extra |}.

Definition connection_field (value : string) : EmbedField :=
  {| field_name := "Connection Test"; field_value := value; field_inline := false |}.

Definition cog_with_other_url : DashboardWebhook := with_url cog_ready "https://example.com/hook".

(** ** Further observations *)

(** The log lines, in order: level, message, [exc_info]. *)
Fixpoint logs (t : list Event) : list (Level * string * bool) :=
  match t with
  | [] => []
  | Logged level msg exc_info :: rest => (level, msg, exc_info) :: logs rest
  | _ :: rest => logs rest
  end.

(** What is sent back into the channel of the command. *)
Definition is_reply (ev : Event) : bool :=
  match ev with
  | SendText _ | SendEmbed _ => true
  | _ => false
  end.

Definition replies (t : list Event) : list Event := filter is_reply t.

(** The one value of the field [name] of the one report a command sent. *)
Definition reported (name : string) (m : M unit) : option string :=
  match sent_embeds (trace m) with
  | [e] => field_named name (fields e)
  | _ => None
  end.

(** The remote side took the message: the cog has a session and a URL,
    and the answer is a 200 whose body decodes to an object. *)
Definition accepted (self : DashboardWebhook) (net : Behaviour) : bool :=
  match session self, net with
  | Some _, Responds r =>
      truthy_str (webhook_url self)
      && (status r =? 200)
      && match json_body r with
         | inr (PyDict _) => true
         | _ => false
         end
  | _, _ => false
  end.

(** The request raised something that is neither a timeout nor a client
    error. *)
Definition internal_fault (self : DashboardWebhook) (net : Behaviour) : bool :=
  match session self, fault_of net with
  | Some _, Some e =>
      truthy_str (webhook_url self)
      && negb (exc_is_timeout e) && negb (exc_is_client_error e)
  | _, _ => false
  end.

(** [len(s)]: the number of code points. *)
Fixpoint code_points (s : string) : nat :=
  match s with
  | EmptyString => O
  | String c rest =>
      if is_continuation c then code_points rest else S (code_points rest)
  end.

(** [old in s] *)
Fixpoint occurs (old s : string) : bool :=
  prefix old s ||
  match s with
  | EmptyString => false
  | String _ rest => occurs old rest
  end.

(** [int(s)] on a decimal literal. *)
Definition parse_int (s : string) : option Z :=
  option_map Z.of_int (NilZero.int_of_string s).

Definition test_ok_reply : string := "✅ Test message sent to dashboard successfully!".
Definition test_failed_reply : string :=
  "❌ Failed to send test message. Check bot logs for details.".

Definition forward_warning (author : User.t) : Event :=
  Logged WARNING ("Failed to forward DM to dashboard from " ++ User.str author
                  ++ " (ID: " ++ str_int (User.id author) ++ ")") false.

Definition webhook_bot : User.t :=
  User.make 99 true "relay-bot" None
    (Asset.make "https://cdn.discordapp.com/embed/avatars/1.png").

Definition dm_from_bot : Message.t := Message.make 8 webhook_bot DMChannel "ping" [].

(** * Properties *)

(** ** The monad *)

Lemma trace_bind {A B : Type} (m : M A) (k : A -> M B) :
  trace (bind m k) =
  (trace m ++ match completion m with
              | Returned a => trace (k a)
              | Raised _ => []
              end)%list.
Proof.
  destruct m as [t [a | e]]; simpl.
  - destruct (k a) as [t' r]. reflexivity.
  - now rewrite app_nil_r.
Qed.

Lemma deliver_calls_app (t u : list Event) :
  deliver_calls (t ++ u) = (deliver_calls t ++ deliver_calls u)%list.
Proof.
  induction t as [| ev t IH]; simpl; [reflexivity |].
  destruct ev; simpl; now rewrite IH.
Qed.

Lemma truthy_str_false (s : string) : truthy_str s = false <-> s = "".
Proof.
  unfold truthy_str. rewrite negb_false_iff. apply String.eqb_eq.
Qed.

Lemma truthy_str_true (s : string) : truthy_str s = true <-> s <> "".
Proof.
  unfold truthy_str. rewrite negb_true_iff. apply String.eqb_neq.
Qed.

(** ** [send_to_dashboard], path by path *)

Section SendPaths.

Variable repr : PyVal -> string.
Variable self : DashboardWebhook.
Variable args : DeliverArgs.

Lemma send_without_session (net : Behaviour) :
  session self = None ->
  send_to_dashboard repr self args net =
  ([Deliver args; Logged ERROR "HTTP session not initialized" false], Returned false).
Proof.
  intros Hs. unfold send_to_dashboard. rewrite Hs. reflexivity.
Qed.

Lemma send_without_url (net : Behaviour) (c : ClientSession) :
  session self = Some c -> webhook_url self = "" ->
  send_to_dashboard repr self args net =
  ([Deliver args; Logged WARNING "Dashboard webhook URL not configured" false],
   Returned false).
Proof.
  intros Hs Hu. unfold send_to_dashboard. rewrite Hs, Hu. reflexivity.
Qed.

Hypothesis has_session : session self <> None.
Hypothesis has_url : webhook_url self <> "".

Lemma send_fault (net : Behaviour) (e : Exc) :
  fault_of net = Some e ->
  send_to_dashboard repr self args net =
  ([Deliver args; post_of self args; fault_log e], Returned false).
Proof.
  intros Hf. unfold send_to_dashboard.
  destruct (session self) as [c |]; [| congruence].
  apply truthy_str_true in has_url. rewrite has_url. simpl negb. cbv iota.
  unfold fault_log, classify, post_of.
  destruct net as [e' | r]; simpl in Hf.
  - injection Hf as ->.
    destruct e as [[|] [|] msg]; reflexivity.
  - unfold session_post. simpl.
    destruct (status r =? 200).
    + destruct (json_body r) as [e' | v]; simpl.
      * injection Hf as ->. destruct e as [[|] [|] msg]; reflexivity.
      * destruct v; try discriminate Hf; injection Hf as <-; reflexivity.
    + destruct (text_body r) as [e' | body]; [| discriminate Hf]. simpl.
      injection Hf as ->. destruct e as [[|] [|] msg]; reflexivity.
Qed.

Lemma send_ok_object (r : Response) (items : list (string * PyVal)) :
  status r = 200 -> json_body r = inr (PyDict items) ->
  send_to_dashboard repr self args (Responds r) =
  ([Deliver args; post_of self args;
    success_log (discord_username args)
      (format_value repr
         (match dict_lookup "ticket_id" items with
          | Some v => v
          | None => PyStr "unknown"
          end))],
   Returned true).
Proof.
  intros Hst Hj. unfold send_to_dashboard.
  destruct (session self) as [c |]; [| congruence].
  apply truthy_str_true in has_url. rewrite has_url. simpl negb. cbv iota.
  unfold session_post. simpl. rewrite Hst, Hj. reflexivity.
Qed.

Lemma send_bad_status (r : Response) (body : string) :
  status r <> 200 -> text_body r = inr body ->
  send_to_dashboard repr self args (Responds r) =
  ([Deliver args; post_of self args; bad_status_log (status r) body], Returned false).
Proof.
  intros Hst Ht. unfold send_to_dashboard.
  destruct (session self) as [c |]; [| congruence].
  apply truthy_str_true in has_url. rewrite has_url. simpl negb. cbv iota.
  unfold session_post. simpl.
  apply Z.eqb_neq in Hst. rewrite Hst, Ht. reflexivity.
Qed.

End SendPaths.

Lemma no_fault (net : Behaviour) :
  fault_of net = None ->
  exists r, net = Responds r /\
    ((status r = 200 /\ exists items, json_body r = inr (PyDict items)) \/
     (status r <> 200 /\ exists body, text_body r = inr body)).
Proof.
  destruct net as [e | r]; simpl; [discriminate |].
  intros Hf. exists r. split; [reflexivity |].
  destruct (status r =? 200) eqn:Hst.
  - left. apply Z.eqb_eq in Hst. split; [assumption |].
    destruct (json_body r) as [e | v]; [discriminate |].
    destruct v; try discriminate. eauto.
  - right. apply Z.eqb_neq in Hst. split; [assumption |].
    destruct (text_body r) as [e | body]; [discriminate | eauto].
Qed.

(** Every call is entered once, makes at most one request, writes one log
    line and returns. *)
Lemma send_shape (repr : PyVal -> string) (self : DashboardWebhook)
    (args : DeliverArgs) (net : Behaviour) :
  exists lvl msg ei b,
    send_to_dashboard repr self args net
      = ([Deliver args; Logged lvl msg ei], Returned b) \/
    send_to_dashboard repr self args net
      = ([Deliver args; post_of self args; Logged lvl msg ei], Returned b).
Proof.
  destruct (session self) as [c |] eqn:Hs.
  2: { rewrite send_without_session by assumption. do 4 eexists. left. reflexivity. }
  destruct (string_dec (webhook_url self) "") as [Hu | Hu].
  { rewrite (send_without_url _ _ _ _ c) by assumption.
    do 4 eexists. left. reflexivity. }
  assert (Hs' : session self <> None) by congruence.
  destruct (fault_of net) as [e |] eqn:Hf.
  - rewrite (send_fault _ _ _ Hs' Hu _ e Hf).
    unfold fault_log. destruct (classify e); do 4 eexists; right; reflexivity.
  - destruct (no_fault _ Hf) as (r & -> & [[Hst [items Hj]] | [Hst [body Ht]]]).
    + rewrite (send_ok_object _ _ _ Hs' Hu r items Hst Hj).
      do 4 eexists. right. reflexivity.
    + rewrite (send_bad_status _ _ _ Hs' Hu r body Hst Ht).
      do 4 eexists. right. reflexivity.
Qed.

Lemma send_deliver_calls (repr : PyVal -> string) (self : DashboardWebhook)
    (args : DeliverArgs) (net : Behaviour) :
  deliver_calls (trace (send_to_dashboard repr self args net)) = [args].
Proof.
  destruct (send_shape repr self args net) as (lvl & msg & ei & b & [H | H]);
    rewrite H; reflexivity.
Qed.

Lemma send_returns (repr : PyVal -> string) (self : DashboardWebhook)
    (args : DeliverArgs) (net : Behaviour) :
  exists b, completion (send_to_dashboard repr self args net) = Returned b.
Proof.
  destruct (send_shape repr self args net) as (lvl & msg & ei & b & [H | H]);
    rewrite H; exists b; reflexivity.
Qed.

(** The [except] clauses are tried in order: aiohttp's timeout, which is
    both a timeout and a client error, is logged as a timeout; a failed
    connection as a transport error; anything else as an internal error. *)
Example classify_examples :
  classify (ServerTimeoutError "Timeout on reading data from socket") = Timeout /\
  classify asyncio_TimeoutError = Timeout /\
  classify (ClientConnectorError "Cannot connect to host") = TransportError /\
  classify (ContentTypeError "Attempt to decode JSON with unexpected mimetype") = TransportError /\
  classify (JSONDecodeError "Expecting value: line 1 column 1 (char 0)") = InternalError /\
  classify (RuntimeError "Session is closed") = InternalError.
Proof. repeat split. Qed.

(** ** The listener *)

Lemma on_message_discarded (repr : PyVal -> string) (self : DashboardWebhook)
    (message : Message.t) (net : Behaviour) :
  discarded (bot self) message = true ->
  on_message repr self message net = ret tt.
Proof.
  unfold discarded, blocked_origin, on_message. intros H.
  destruct (User.bot (Message.author message)); [reflexivity |].
  destruct (isinstance_DMChannel (Message.channel message)); [| reflexivity].
  destruct (Context.valid (Bot.get_context (bot self) message)); [reflexivity |].
  simpl in H. rewrite H. reflexivity.
Qed.

Lemma on_message_forwarded (repr : PyVal -> string) (self : DashboardWebhook)
    (message : Message.t) (net : Behaviour) :
  discarded (bot self) message = false ->
  on_message repr self message net =
  (success <- send_to_dashboard repr self (record_of message) net ;;
   if negb success then
     log WARNING ("Failed to forward DM to dashboard from "
                  ++ User.str (Message.author message)
                  ++ " (ID: " ++ str_int (User.id (Message.author message)) ++ ")") false
   else ret tt).
Proof.
  unfold discarded, blocked_origin, on_message. intros H.
  destruct (User.bot (Message.author message)); [discriminate |].
  destruct (isinstance_DMChannel (Message.channel message)); [| discriminate].
  destruct (Context.valid (Bot.get_context (bot self) message)); [discriminate |].
  simpl in H. rewrite H. reflexivity.
Qed.

Lemma on_message_deliver_calls (repr : PyVal -> string) (self : DashboardWebhook)
    (message : Message.t) (net : Behaviour) :
  deliver_calls (trace (on_message repr self message net)) =
  if discarded (bot self) message then [] else [record_of message].
Proof.
  destruct (discarded (bot self) message) eqn:Hd.
  - rewrite on_message_discarded by assumption. reflexivity.
  - rewrite on_message_forwarded by assumption.
    rewrite trace_bind, deliver_calls_app, send_deliver_calls.
    destruct (send_returns repr self (record_of message) net) as [b ->].
    destruct b; reflexivity.
Qed.

(** C1. For every inbound message the listener handles: when the message
    is bot-authored, or not in a DM channel, or a valid command, or from
    an author in the bot's [blocked_users] (when the bot has that
    attribute), [send_to_dashboard] is called zero times; otherwise it is
    called exactly once. *)
Theorem on_message_delivers_once_unless_discarded
    (repr : PyVal -> string) (self : DashboardWebhook) (message : Message.t)
    (net : Behaviour) :
  length (deliver_calls (trace (on_message repr self message net))) =
  if User.bot (Message.author message)
     || negb (isinstance_DMChannel (Message.channel message))
     || Context.valid (Bot.get_context (bot self) message)
     || match Bot.blocked_users (bot self) with
        | Some contains => contains (User.id (Message.author message))
        | None => false
        end
  then 0%nat else 1%nat.
Proof.
  rewrite on_message_deliver_calls.
  change (length (if discarded (bot self) message then [] else [record_of message])
          = if discarded (bot self) message then 0%nat else 1%nat).
  destruct (discarded (bot self) message); reflexivity.
Qed.

(** C2. When the session is not initialized or the webhook URL is empty,
    [send_to_dashboard] returns [False] at once, with the one log line
    that names what is not configured, and hands no request to the HTTP
    session. *)
Theorem send_to_dashboard_not_configured
    (repr : PyVal -> string) (self : DashboardWebhook) (args : DeliverArgs)
    (net : Behaviour) :
  session self = None \/ webhook_url self = "" ->
  completion (send_to_dashboard repr self args net) = Returned false /\
  (trace (send_to_dashboard repr self args net)
     = [Deliver args; Logged ERROR "HTTP session not initialized" false] \/
   trace (send_to_dashboard repr self args net)
     = [Deliver args; Logged WARNING "Dashboard webhook URL not configured" false]) /\
  transport_calls (trace (send_to_dashboard repr self args net)) = [].
Proof.
  intros H.
  destruct (session self) as [c |] eqn:Hs.
  - destruct H as [H | H]; [discriminate |].
    rewrite (send_without_url repr self args net c Hs H).
    repeat split. right. reflexivity.
  - rewrite (send_without_session repr self args net Hs).
    repeat split. left. reflexivity.
Qed.

Lemma send_to_dashboard_not_configured_witness :
  session cog_fresh = None /\
  completion (send_to_dashboard scalar_repr cog_fresh hello_args (Responds ticket_response))
    = Returned false /\
  transport_calls (trace (send_to_dashboard scalar_repr cog_fresh hello_args
                            (Responds ticket_response))) = [].
Proof.
  split; [reflexivity |].
  pose proof (send_to_dashboard_not_configured scalar_repr cog_fresh hello_args
                (Responds ticket_response) (or_introl eq_refl)) as (Hc & _ & Ht).
  split; assumption.
Defined.

(** C3. Whatever the remote side and the transport do, [send_to_dashboard]
    returns a value and raises nothing; and every exception raised inside
    the request (by the request itself, by reading the body, or by a body
    that is not the expected object) is caught there, logged under its
    class (timeout, transport error or internal error) and turned into
    [False]. *)
Theorem send_to_dashboard_never_raises
    (repr : PyVal -> string) (self : DashboardWebhook) (args : DeliverArgs)
    (net : Behaviour) :
  (exists b, completion (send_to_dashboard repr self args net) = Returned b) /\
  (forall e, session self <> None -> webhook_url self <> "" ->
     fault_of net = Some e ->
     send_to_dashboard repr self args net =
     ([Deliver args; post_of self args;
       match classify e with
       | Timeout => Logged ERROR "Dashboard webhook request timed out" false
       | TransportError =>
           Logged ERROR ("Dashboard webhook request failed: " ++ exc_str e) false
       | InternalError =>
           Logged ERROR ("Unexpected error sending to dashboard: " ++ exc_str e) true
       end],
      Returned false)).
Proof.
  split; [apply send_returns |].
  intros e Hs Hu Hf. exact (send_fault repr self args Hs Hu net e Hf).
Qed.

Lemma send_to_dashboard_never_raises_witness :
  fault_of (Raises (ClientConnectorError "Cannot connect to host"))
    = Some (ClientConnectorError "Cannot connect to host") /\
  send_to_dashboard scalar_repr cog_ready hello_args
    (Raises (ClientConnectorError "Cannot connect to host")) =
  ([Deliver hello_args; post_of cog_ready hello_args;
    Logged ERROR "Dashboard webhook request failed: Cannot connect to host" false],
   Returned false).
Proof.
  split; [reflexivity |].
  apply (proj2 (send_to_dashboard_never_raises scalar_repr cog_ready hello_args
                  (Raises (ClientConnectorError "Cannot connect to host")))
           (ClientConnectorError "Cannot connect to host")).
  - intros H. vm_compute in H. discriminate H.
  - intros H. vm_compute in H. discriminate H.
  - reflexivity.
Defined.

(** C4, as stated, fails: a [200] response whose body decodes to [null]
    (no object, so no [get]) makes the configured call return [False]. *)
Lemma ok_status_with_null_body_returns_false :
  session cog_ready <> None /\
  webhook_url cog_ready <> "" /\
  status null_response = 200 /\
  send_to_dashboard scalar_repr cog_ready hello_args (Responds null_response) =
  ([Deliver hello_args; post_of cog_ready hello_args;
    Logged ERROR
      "Unexpected error sending to dashboard: 'NoneType' object has no attribute 'get'"
      true],
   Returned false).
Proof.
  split; [intros H; vm_compute in H; discriminate H |].
  split; [intros H; vm_compute in H; discriminate H |].
  split; reflexivity.
Qed.

(** C4, amended. On a configured client, a [200] response whose body
    decodes to a JSON object makes [send_to_dashboard] return [True]; the
    object's [ticket_id], or [unknown] when it has none, is written to the
    one log line of the call. *)
Theorem send_to_dashboard_ok_object
    (repr : PyVal -> string) (self : DashboardWebhook) (args : DeliverArgs)
    (r : Response) (items : list (string * PyVal)) :
  session self <> None -> webhook_url self <> "" ->
  status r = 200 -> json_body r = inr (PyDict items) ->
  send_to_dashboard repr self args (Responds r) =
  ([Deliver args;
    Post (webhook_url self) (payload_of args) (headers_of self) 10;
    Logged INFO
      ("Successfully forwarded DM to dashboard: user=" ++ discord_username args
       ++ ", ticket="
       ++ match dict_lookup "ticket_id" items with
          | Some (PyStr token) => token
          | Some v => repr v
          | None => "unknown"
          end)
      false],
   Returned true).
Proof.
  intros Hs Hu Hst Hj.
  rewrite (send_ok_object repr self args Hs Hu r items Hst Hj).
  unfold success_log, post_of.
  destruct (dict_lookup "ticket_id" items) as [[] |]; reflexivity.
Qed.

(** The body [{"ticket_id": "T1"}] gives [True] and the token [T1]. *)
Lemma send_to_dashboard_ok_object_witness :
  status ticket_response = 200 /\
  send_to_dashboard scalar_repr cog_ready hello_args (Responds ticket_response) =
  ([Deliver hello_args;
    Post default_webhook_url (payload_of hello_args)
      [("Content-Type", "application/json"); ("X-Webhook-Secret", "")] 10;
    Logged INFO "Successfully forwarded DM to dashboard: user=alice, ticket=T1" false],
   Returned true).
Proof.
  split; [reflexivity |].
  apply (send_to_dashboard_ok_object scalar_repr cog_ready hello_args ticket_response
           [("ticket_id", PyStr "T1")]).
  - intros H. vm_compute in H. discriminate H.
  - intros H. vm_compute in H. discriminate H.
  - reflexivity.
  - reflexivity.
Defined.

(** C5, as stated, fails: when a [500] arrives and its body cannot be read
    before the timeout, the call is logged as timed out, and no line
    carries the status and a body. *)
Lemma error_status_with_unread_body_is_timeout :
  session cog_ready <> None /\
  webhook_url cog_ready <> "" /\
  status stalled_response <> 200 /\
  send_to_dashboard scalar_repr cog_ready hello_args (Responds stalled_response) =
  ([Deliver hello_args; post_of cog_ready hello_args;
    Logged ERROR "Dashboard webhook request timed out" false],
   Returned false) /\
  ~ (exists body,
       In (bad_status_log (status stalled_response) body)
          (trace (send_to_dashboard scalar_repr cog_ready hello_args
                    (Responds stalled_response)))).
Proof.
  split; [intros H; vm_compute in H; discriminate H |].
  split; [intros H; vm_compute in H; discriminate H |].
  split; [intros H; discriminate H |].
  split; [reflexivity |].
  intros [body H]. cbn in H.
  destruct H as [H | [H | [H | []]]]; discriminate H.
Qed.

(** C5, amended. On a configured client, every response with a status
    other than [200] makes [send_to_dashboard] return [False]; when the
    body of that response can be read as text, the one log line of the
    call carries the status code and the body. *)
Theorem send_to_dashboard_bad_status
    (repr : PyVal -> string) (self : DashboardWebhook) (args : DeliverArgs)
    (r : Response) :
  session self <> None -> webhook_url self <> "" -> status r <> 200 ->
  completion (send_to_dashboard repr self args (Responds r)) = Returned false /\
  (forall body, text_body r = inr body ->
     send_to_dashboard repr self args (Responds r) =
     ([Deliver args;
       Post (webhook_url self) (payload_of args) (headers_of self) 10;
       Logged ERROR ("Dashboard webhook failed with status "
                     ++ str_int (status r) ++ ": " ++ body) false],
      Returned false)).
Proof.
  intros Hs Hu Hst. split.
  - destruct (text_body r) as [e | body] eqn:Ht.
    + rewrite (send_fault repr self args Hs Hu (Responds r) e); [reflexivity |].
      simpl. apply Z.eqb_neq in Hst. rewrite Hst, Ht. reflexivity.
    + rewrite (send_bad_status repr self args Hs Hu r body Hst Ht). reflexivity.
  - intros body Ht. exact (send_bad_status repr self args Hs Hu r body Hst Ht).
Qed.

(** A [500] with the body [oops] is logged with [500] and [oops]. *)
Lemma send_to_dashboard_bad_status_witness :
  status oops_response = 500 /\
  send_to_dashboard scalar_repr cog_ready hello_args (Responds oops_response) =
  ([Deliver hello_args;
    Post default_webhook_url (payload_of hello_args)
      [("Content-Type", "application/json"); ("X-Webhook-Secret", "")] 10;
    Logged ERROR "Dashboard webhook failed with status 500: oops" false],
   Returned false).
Proof.
  split; [reflexivity |].
  apply (proj2 (send_to_dashboard_bad_status scalar_repr cog_ready hello_args oops_response
                  ltac:(intros H; vm_compute in H; discriminate H)
                  ltac:(intros H; vm_compute in H; discriminate H)
                  ltac:(intros H; discriminate H)) "oops").
  reflexivity.
Defined.

(** ** The payload *)

Lemma format_attachments_maps (atts : list Attachment.t) :
  Forall2 attachment_dict atts (_format_attachments atts).
Proof.
  induction atts as [| att atts IH]; simpl; constructor; [| exact IH].
  unfold attachment_dict, str_or, truthy_str, default_content_type.
  destruct (Attachment.content_type att) as [ct |]; [| reflexivity].
  destruct (ct =? "")%string; reflexivity.
Qed.

Lemma get_avatar_url_value (user : User.t) :
  _get_avatar_url user =
  Some match User.avatar user with
       | Some a => if (Asset.url a =? "")%string
                   then Asset.url (User.default_avatar user) else Asset.url a
       | None => Asset.url (User.default_avatar user)
       end.
Proof.
  unfold _get_avatar_url, Asset.truthy, truthy_str.
  destruct (User.avatar user) as [a |]; [| reflexivity].
  destruct (Asset.url a =? "")%string; reflexivity.
Qed.

(** C6. For every message that passes the listener's filter, the record
    handed to [send_to_dashboard] has the author's id and the message's id
    as decimal strings, [str(author)] as the name, the message text or
    [(No text content)] when the text is empty, the author's avatar URL or
    the default avatar's URL when no avatar is set, and one dict per
    attachment, in order, with [application/octet-stream] as the content
    type when the attachment declares none.  By Python's truth test an
    avatar whose URL is empty and a declared content type that is empty
    count as absent. *)
Theorem on_message_record
    (repr : PyVal -> string) (self : DashboardWebhook) (message : Message.t)
    (net : Behaviour) :
  discarded (bot self) message = false ->
  exists args atts,
    deliver_calls (trace (on_message repr self message net)) = [args] /\
    discord_user_id args = str_int (User.id (Message.author message)) /\
    discord_message_id args = Some (str_int (Message.id message)) /\
    discord_username args = User.str (Message.author message) /\
    content args = (if (Message.content message =? "")%string
                    then "(No text content)" else Message.content message) /\
    discord_avatar_url args =
      Some match User.avatar (Message.author message) with
           | Some a => if (Asset.url a =? "")%string
                       then Asset.url (User.default_avatar (Message.author message))
                       else Asset.url a
           | None => Asset.url (User.default_avatar (Message.author message))
           end /\
    attachments args = Some atts /\
    Forall2 attachment_dict (Message.attachments message) atts /\
    length atts = length (Message.attachments message).
Proof.
  intros Hd.
  exists (record_of message), (_format_attachments (Message.attachments message)).
  rewrite on_message_deliver_calls, Hd.
  repeat split.
  - simpl. unfold truthy_str. destruct (Message.content message =? "")%string; reflexivity.
  - apply get_avatar_url_value.
  - apply format_attachments_maps.
  - unfold _format_attachments. apply length_map.
Qed.

Lemma on_message_record_witness :
  discarded (bot cog_ready) dm_from_alice = false /\
  exists args atts,
    deliver_calls (trace (on_message scalar_repr cog_ready dm_from_alice
                            (Responds ticket_response))) = [args] /\
    discord_user_id args = "42" /\
    discord_message_id args = Some "7" /\
    discord_username args = "alice" /\
    content args = "(No text content)" /\
    discord_avatar_url args = Some "https://cdn.discordapp.com/embed/avatars/0.png" /\
    attachments args = Some atts /\
    Forall2 attachment_dict (Message.attachments dm_from_alice) atts /\
    length atts = 1%nat.
Proof.
  split; [reflexivity |].
  exact (on_message_record scalar_repr cog_ready dm_from_alice
           (Responds ticket_response) eq_refl).
Defined.

(** ** The test command *)

Lemma test_dashboard_unfold (repr : PyVal -> string) (self : DashboardWebhook)
    (ctx : Context.t) (message : option string) (net : Behaviour) :
  exists reply,
    test_dashboard repr self ctx message net =
    ((trace (send_to_dashboard repr self (test_record_of ctx message) net)
      ++ [SendText reply])%list, Returned tt).
Proof.
  unfold test_dashboard. fold (test_record_of ctx message).
  destruct (send_shape repr self (test_record_of ctx message) net)
    as (lvl & msg & ei & b & [H | H]); rewrite H; destruct b; eexists; reflexivity.
Qed.

(** C9. The test command hands to [send_to_dashboard], the function the
    listener uses, a record whose text is [[TEST] ] followed by the
    caller's message, or by [Test message from bot] when none is given,
    and whose user id is the caller's id as a decimal string; the message
    [hello] from caller 42 gives [[TEST] hello] and [42]. *)
Theorem test_dashboard_record :
  (forall (repr : PyVal -> string) (self : DashboardWebhook) (ctx : Context.t)
          (message : option string) (net : Behaviour),
     exists args reply,
       test_dashboard repr self ctx message net =
       ((trace (send_to_dashboard repr self args net) ++ [SendText reply])%list,
        Returned tt) /\
       deliver_calls (trace (test_dashboard repr self ctx message net)) = [args] /\
       content args = "[TEST] " ++ match message with
                                   | Some m => m
                                   | None => "Test message from bot"
                                   end /\
       discord_user_id args = str_int (User.id (Context.author ctx))) /\
  (forall (repr : PyVal -> string) (self : DashboardWebhook) (net : Behaviour),
     User.id (Context.author admin_ctx) = 42 /\
     exists args,
       deliver_calls (trace (test_dashboard repr self admin_ctx (Some "hello") net))
         = [args] /\
       content args = "[TEST] hello" /\
       discord_user_id args = "42").
Proof.
  assert (G : forall repr self ctx message net,
             deliver_calls (trace (test_dashboard repr self ctx message net))
             = [test_record_of ctx message]).
  { intros repr self ctx message net.
    destruct (test_dashboard_unfold repr self ctx message net) as [reply ->].
    unfold trace at 1. simpl fst.
    rewrite deliver_calls_app, send_deliver_calls. reflexivity. }
  split.
  - intros repr self ctx message net.
    destruct (test_dashboard_unfold repr self ctx message net) as [reply H].
    exists (test_record_of ctx message), reply.
    split; [exact H |]. split; [apply G |]. split; reflexivity.
  - intros repr self net. split; [reflexivity |].
    exists (test_record_of admin_ctx (Some "hello")).
    split; [apply G |]. split; reflexivity.
Qed.

(** ** The avatar URL *)

Lemma send_avatar_present (repr : PyVal -> string) (self : DashboardWebhook)
    (args : DeliverArgs) (net : Behaviour) (url : string) :
  discord_avatar_url args = Some url ->
  Forall avatar_present (trace (send_to_dashboard repr self args net)).
Proof.
  intros Ha.
  assert (Hp : avatar_present (post_of self args)).
  { simpl. rewrite Ha. exists url. reflexivity. }
  assert (Hd : avatar_present (Deliver args)) by (exists url; exact Ha).
  destruct (send_shape repr self args net) as (lvl & msg & ei & b & [H | H]);
    rewrite H; unfold trace; simpl fst; repeat constructor; assumption.
Qed.

(** C10. [_get_avatar_url] returns a string for every user, never [None]:
    the default avatar's URL stands in when the user has no avatar.  So
    every call and every request made by the listener or by the test
    command carries an avatar URL that is a string. *)
Theorem avatar_url_is_never_none :
  (forall user : User.t, exists url, _get_avatar_url user = Some url) /\
  (forall user : User.t, User.avatar user = None ->
     _get_avatar_url user = Some (Asset.url (User.default_avatar user))) /\
  (forall (repr : PyVal -> string) (self : DashboardWebhook) (message : Message.t)
          (net : Behaviour),
     Forall avatar_present (trace (on_message repr self message net))) /\
  (forall (repr : PyVal -> string) (self : DashboardWebhook) (ctx : Context.t)
          (message : option string) (net : Behaviour),
     Forall avatar_present (trace (test_dashboard repr self ctx message net))).
Proof.
  split; [| split; [| split]].
  - intros user. rewrite get_avatar_url_value. eauto.
  - intros user H. rewrite get_avatar_url_value, H. reflexivity.
  - intros repr self message net.
    destruct (discarded (bot self) message) eqn:Hd.
    + rewrite on_message_discarded by assumption. constructor.
    + rewrite on_message_forwarded by assumption. rewrite trace_bind.
      apply Forall_app. split.
      * apply (send_avatar_present repr self (record_of message) net _
                 (get_avatar_url_value (Message.author message))).
      * destruct (send_returns repr self (record_of message) net) as [b ->].
        destruct b; simpl; repeat constructor.
  - intros repr self ctx message net.
    destruct (test_dashboard_unfold repr self ctx message net) as [reply ->].
    unfold trace at 1. simpl fst. apply Forall_app. split.
    + apply (send_avatar_present repr self (test_record_of ctx message) net _
               (get_avatar_url_value (Context.author ctx))).
    + repeat constructor.
Qed.

Lemma avatar_url_is_never_none_witness :
  User.avatar alice = None /\
  _get_avatar_url alice = Some "https://cdn.discordapp.com/embed/avatars/0.png".
Proof.
  split; [reflexivity |].
  exact (proj1 (proj2 avatar_url_is_never_none) alice eq_refl).
Defined.

(** ** [str.replace] on a suffix *)

Lemma append_empty_r (s : string) : s ++ "" = s.
Proof.
  induction s as [| c s IH]; simpl; [reflexivity | now rewrite IH].
Qed.

Lemma replace_from_skip_all (old new s : string) :
  replace_from old new (String.length s) s = "".
Proof.
  induction s as [| c s IH]; simpl; [reflexivity | exact IH].
Qed.

Lemma prefix_refl (s : string) : prefix s s = true.
Proof.
  induction s as [| c s IH]; simpl; [reflexivity |].
  destruct (ascii_dec c c); [exact IH | congruence].
Qed.

Lemma str_replace_suffix (old new base : string) :
  old <> "" -> no_match_before old base old = true ->
  str_replace (base ++ old) old new = base ++ new.
Proof.
  intros Hold. unfold str_replace.
  induction base as [| c base IH]; intros Hn.
  - destruct old as [| d old]; [congruence |].
    cbn [append replace_from]. rewrite prefix_refl.
    cbn [String.length]. rewrite Nat.sub_1_r. cbn [Nat.pred].
    rewrite replace_from_skip_all. now rewrite append_empty_r.
  - cbn [no_match_before] in Hn. apply andb_true_iff in Hn as [Hp Hrest].
    apply negb_true_iff in Hp.
    change ((String c base) ++ old) with (String c (base ++ old)) in *.
    cbn [replace_from]. rewrite Hp. cbn [append]. f_equal. apply IH, Hrest.
Qed.

Lemma ends_with_app (base suffix : string) : ends_with (base ++ suffix) suffix = true.
Proof.
  induction base as [| c base IH]; cbn [append].
  - destruct suffix; cbn [ends_with]; rewrite String.eqb_refl; reflexivity.
  - cbn [ends_with]. rewrite IH. apply orb_true_r.
Qed.

(** ** The status report *)

Section StatusReport.

Variable self : DashboardWebhook.
Variable ctx : Context.t.
Variable now : Z.
Variable net : Behaviour.

Lemma dashboard_status_without_url :
  webhook_url self = "" ->
  dashboard_status self ctx now net =
  ([SendEmbed (status_embed self now [])], Returned tt).
Proof.
  intros Hu. unfold dashboard_status, status_embed. rewrite Hu. reflexivity.
Qed.

Lemma dashboard_status_without_session :
  webhook_url self <> "" -> session self = None ->
  dashboard_status self ctx now net =
  ([SendEmbed (status_embed self now
                 [connection_field "❌ Failed: 'NoneType' object has no attribute 'get'"])],
   Returned tt).
Proof.
  intros Hu Hs. apply truthy_str_true in Hu.
  unfold dashboard_status, status_embed. rewrite Hu, Hs. reflexivity.
Qed.

Lemma dashboard_status_with_probe (c : ClientSession) :
  webhook_url self <> "" -> session self = Some c ->
  dashboard_status self ctx now net =
  ([Get (str_replace (webhook_url self) relay_suffix health_suffix) 5;
    SendEmbed (status_embed self now [connection_field (connection_test net)])],
   Returned tt).
Proof.
  intros Hu Hs. apply truthy_str_true in Hu.
  unfold dashboard_status, status_embed, connection_test. rewrite Hu, Hs.
  destruct net as [e | r]; [reflexivity |].
  unfold session_get. simpl. destruct (status r =? 200); reflexivity.
Qed.

Lemma dashboard_status_sends_one_report :
  exists extra,
    sent_embeds (trace (dashboard_status self ctx now net))
    = [status_embed self now extra].
Proof.
  destruct (string_dec (webhook_url self) "") as [Hu | Hu].
  { rewrite dashboard_status_without_url by assumption. eexists. reflexivity. }
  destruct (session self) as [c |] eqn:Hs.
  - rewrite (dashboard_status_with_probe c) by assumption. eexists. reflexivity.
  - rewrite dashboard_status_without_session by assumption. eexists. reflexivity.
Qed.

End StatusReport.

Lemma dashboard_status_ignores_secret (self : DashboardWebhook) (ctx : Context.t)
    (now : Z) (net : Behaviour) (s1 s2 : string) :
  truthy_str s1 = truthy_str s2 ->
  dashboard_status (with_secret self s1) ctx now net
  = dashboard_status (with_secret self s2) ctx now net.
Proof.
  intros H. unfold dashboard_status, with_secret.
  cbn [webhook_secret webhook_url session]. rewrite H. reflexivity.
Qed.

(** C7. The status report depends on the secret only through whether it
    is empty: the field [Secret Configured] reads [No] for the empty
    secret and [Yes] for any other, and two secrets that are both
    non-empty give the same report and the same calls, so that nothing of
    a secret's value reaches the report. *)
Theorem dashboard_status_hides_secret
    (self : DashboardWebhook) (ctx : Context.t) (now : Z) (net : Behaviour) :
  (exists e,
     sent_embeds (trace (dashboard_status self ctx now net)) = [e] /\
     field_named "Secret Configured" (fields e) =
     Some (if (webhook_secret self =? "")%string then "❌ No" else "✅ Yes")) /\
  (forall s1 s2 : string, s1 <> "" -> s2 <> "" ->
     dashboard_status (with_secret self s1) ctx now net
     = dashboard_status (with_secret self s2) ctx now net).
Proof.
  split.
  - destruct (dashboard_status_sends_one_report self ctx now net) as [extra H].
    exists (status_embed self now extra). split; [exact H |].
    unfold status_embed, truthy_str. cbn.
    destruct (webhook_secret self =? "")%string; reflexivity.
  - intros s1 s2 H1 H2. apply dashboard_status_ignores_secret.
    apply truthy_str_true in H1, H2. congruence.
Qed.

Lemma dashboard_status_hides_secret_witness :
  "hunter2" <> "" /\ "correct horse" <> "" /\
  dashboard_status (with_secret cog_ready "hunter2") admin_ctx 0 (Responds ticket_response)
  = dashboard_status (with_secret cog_ready "correct horse") admin_ctx 0
      (Responds ticket_response).
Proof.
  assert (H1 : "hunter2" <> "") by (intros H; discriminate H).
  assert (H2 : "correct horse" <> "") by (intros H; discriminate H).
  split; [exact H1 |]. split; [exact H2 |].
  exact (proj2 (dashboard_status_hides_secret cog_ready admin_ctx 0
                  (Responds ticket_response)) "hunter2" "correct horse" H1 H2).
Defined.

(** C8, as stated, fails twice.  Before the session is opened no GET is
    made although the endpoint is configured; and an endpoint that does
    not contain [/discord-modmail-webhook] is probed at its own address,
    which does not end in [/health]. *)
Lemma dashboard_status_probe_counterexamples :
  (webhook_url cog_fresh <> "" /\
   probes (trace (dashboard_status cog_fresh admin_ctx 0 (Responds ticket_response))) = []) /\
  (webhook_url cog_with_other_url = "https://example.com/hook" /\
   probes (trace (dashboard_status cog_with_other_url admin_ctx 0
                    (Responds ticket_response)))
   = [("https://example.com/hook", 5)] /\
   ~ (exists base, "https://example.com/hook" = base ++ "/health")).
Proof.
  split; [split | split; [| split]].
  - intros H. vm_compute in H. discriminate H.
  - reflexivity.
  - reflexivity.
  - reflexivity.
  - intros [base H].
    pose proof (ends_with_app base "/health") as E.
    rewrite <- H in E. vm_compute in E. discriminate E.
Qed.

(** C8, amended. With an endpoint configured and the session opened, the
    status report makes exactly one request: a GET with a total timeout
    of 5 to the endpoint with every occurrence of
    [/discord-modmail-webhook] replaced by [/health], which for an
    endpoint that ends in that suffix and has it nowhere else is the
    suffix replaced.  The field [Connection Test] then reads reachable on
    status 200, the status on any other status, and the failure on an
    exception, three texts that never coincide.  With no endpoint
    configured no request is made. *)
Theorem dashboard_status_probe
    (self : DashboardWebhook) (ctx : Context.t) (now : Z) (net : Behaviour) :
  (webhook_url self = "" ->
   transport_calls (trace (dashboard_status self ctx now net)) = []) /\
  (forall c : ClientSession, session self = Some c -> webhook_url self <> "" ->
     transport_calls (trace (dashboard_status self ctx now net))
     = [Get (str_replace (webhook_url self) "/discord-modmail-webhook" "/health") 5] /\
     (forall base : string,
        webhook_url self = base ++ "/discord-modmail-webhook" ->
        no_match_before "/discord-modmail-webhook" base "/discord-modmail-webhook" = true ->
        str_replace (webhook_url self) "/discord-modmail-webhook" "/health"
        = base ++ "/health") /\
     exists e,
       sent_embeds (trace (dashboard_status self ctx now net)) = [e] /\
       field_named "Connection Test" (fields e) =
       Some match net with
            | Responds r =>
                if status r =? 200 then "✅ Endpoint reachable"
                else "⚠️ Status " ++ str_int (status r)
            | Raises e => "❌ Failed: " ++ slice_to 50 (exc_str e)
            end) /\
  (forall (code : Z) (e : Exc),
     reachable <> status_warning code /\
     reachable <> probe_failed e /\
     status_warning code <> probe_failed e).
Proof.
  split; [| split].
  - intros Hu. rewrite dashboard_status_without_url by assumption. reflexivity.
  - intros c Hs Hu. rewrite (dashboard_status_with_probe self ctx now net c Hu Hs).
    split; [reflexivity |]. split.
    + intros base Hb Hn. rewrite Hb.
      apply str_replace_suffix; [intros H; discriminate H | exact Hn].
    + eexists. split; [reflexivity |]. reflexivity.
  - intros code e. unfold reachable, status_warning, probe_failed.
    repeat split; intros H; cbn [append] in H; discriminate H.
Qed.

Lemma dashboard_status_probe_witness :
  session cog_ready = Some {| closed := false |} /\
  webhook_url cog_ready
  = "https://qlnbergwjfrmgkjhrbkj.supabase.co/functions/v1" ++ "/discord-modmail-webhook" /\
  transport_calls (trace (dashboard_status cog_ready admin_ctx 0 (Responds oops_response)))
  = [Get "https://qlnbergwjfrmgkjhrbkj.supabase.co/functions/v1/health" 5] /\
  transport_calls
    (trace (dashboard_status (with_url cog_ready "") admin_ctx 0 (Responds oops_response)))
  = [].
Proof.
  split; [reflexivity |]. split; [reflexivity |].
  pose proof (dashboard_status_probe cog_ready admin_ctx 0 (Responds oops_response))
    as [_ [H _]].
  specialize (H {| closed := false |} eq_refl
                ltac:(intros E; vm_compute in E; discriminate E)) as [Hcalls [Hsuffix _]].
  specialize (Hsuffix "https://qlnbergwjfrmgkjhrbkj.supabase.co/functions/v1"
                eq_refl eq_refl).
  split.
  - rewrite Hcalls, Hsuffix. reflexivity.
  - exact (proj1 (dashboard_status_probe (with_url cog_ready "") admin_ctx 0
                    (Responds oops_response)) eq_refl).
Defined.

(** * Further properties of the cog *)

(** ** One call of [send_to_dashboard] *)

Lemma send_completion (repr : PyVal -> string) (self : DashboardWebhook)
    (args : DeliverArgs) (net : Behaviour) :
  completion (send_to_dashboard repr self args net) = Returned (accepted self net).
Proof.
  unfold accepted.
  destruct (session self) as [c |] eqn:Hs.
  2: { now rewrite send_without_session. }
  destruct (string_dec (webhook_url self) "") as [Hu | Hu].
  { rewrite (send_without_url repr self args net c Hs Hu), Hu.
    destruct net; reflexivity. }
  assert (Hs' : session self <> None) by congruence.
  pose proof (proj2 (truthy_str_true _) Hu) as Ht. rewrite Ht.
  destruct (fault_of net) as [e |] eqn:Hf.
  - rewrite (send_fault repr self args Hs' Hu net e Hf).
    destruct net as [e' | r]; [reflexivity |].
    simpl in Hf. cbn [completion snd andb].
    destruct (status r =? 200); [| reflexivity].
    destruct (json_body r) as [e' | v]; [reflexivity |].
    destruct v; try reflexivity. discriminate Hf.
  - destruct (no_fault _ Hf) as (r & -> & [[Hst [items Hj]] | [Hst [body Hb]]]).
    + rewrite (send_ok_object repr self args Hs' Hu r items Hst Hj).
      rewrite Hst, Hj. reflexivity.
    + rewrite (send_bad_status repr self args Hs' Hu r body Hst Hb).
      apply Z.eqb_neq in Hst. rewrite Hst. reflexivity.
Qed.

(** X1. [send_to_dashboard] returns [True] exactly when the cog has a
    session and a URL and the answer is a 200 whose body decodes to an
    object; in every other case, whatever went wrong, it returns
    [False]. *)
Theorem send_to_dashboard_true_iff_accepted
    (repr : PyVal -> string) (self : DashboardWebhook) (args : DeliverArgs)
    (net : Behaviour) :
  completion (send_to_dashboard repr self args net) = Returned (accepted self net).
Proof. apply send_completion. Qed.

(** X2. One call makes at most one request, whatever fails: there is no
    retry.  A request that is made is a POST to the configured URL, with
    a total timeout of 10, the two headers, the second of which carries
    the secret, and the six keys of the payload, where absent
    attachments are sent as an empty list. *)
Theorem send_to_dashboard_single_attempt
    (repr : PyVal -> string) (self : DashboardWebhook) (args : DeliverArgs)
    (net : Behaviour) :
  transport_calls (trace (send_to_dashboard repr self args net)) = [] \/
  transport_calls (trace (send_to_dashboard repr self args net)) =
  [ Post (webhook_url self)
      (PyDict [ ("discord_user_id", PyStr (discord_user_id args));
                ("discord_username", PyStr (discord_username args));
                ("content", PyStr (content args));
                ("discord_avatar_url",
                 match discord_avatar_url args with
                 | Some url => PyStr url
                 | None => PyNone
                 end);
                ("discord_message_id",
                 match discord_message_id args with
                 | Some id => PyStr id
                 | None => PyNone
                 end);
                ("attachments",
                 PyList match attachments args with
                        | Some l => l
                        | None => []
                        end) ])
      [ ("Content-Type", "application/json");
        ("X-Webhook-Secret", webhook_secret self) ]
      10 ].
Proof.
  destruct (send_shape repr self args net) as (lvl & msg & ei & b & [H | H]);
    rewrite H; [left | right]; reflexivity.
Qed.



(** X4. One call writes exactly one log line.  The line is at level INFO
    exactly when the call returns [True], and at level WARNING exactly
    when the session is there but the URL is empty; it carries the
    traceback ([exc_info]) exactly when the request raised something that
    is neither a timeout nor a client error. *)
Theorem send_to_dashboard_one_log_line
    (repr : PyVal -> string) (self : DashboardWebhook) (args : DeliverArgs)
    (net : Behaviour) :
  exists lvl msg,
    logs (trace (send_to_dashboard repr self args net))
    = [(lvl, msg, internal_fault self net)] /\
    (lvl = INFO <-> accepted self net = true) /\
    (lvl = WARNING <-> session self <> None /\ webhook_url self = "").
Proof.
  unfold internal_fault, accepted.
  destruct (session self) as [c |] eqn:Hs.
  2: { rewrite send_without_session by assumption. do 2 eexists.
       split; [reflexivity |].
       split; split; intros H; try discriminate H.
       destruct H as [H _]. now elim H. }
  destruct (string_dec (webhook_url self) "") as [Hu | Hu].
  { rewrite (send_without_url repr self args net c Hs Hu), Hu. do 2 eexists.
    split; [destruct (fault_of net); reflexivity |].
    split; split; intros H; try discriminate H.
    - destruct net; discriminate H.
    - split; [discriminate | reflexivity].
    - reflexivity. }
  assert (Hs' : session self <> None) by congruence.
  pose proof (proj2 (truthy_str_true _) Hu) as Ht. rewrite Ht.
  destruct (fault_of net) as [e |] eqn:Hf.
  - rewrite (send_fault repr self args Hs' Hu net e Hf).
    unfold fault_log, classify.
    assert (Hacc : match net with
                   | Raises _ => false
                   | Responds r =>
                       true && (status r =? 200)
                       && match json_body r with
                          | inr (PyDict _) => true
                          | _ => false
                          end
                   end = false).
    { destruct net as [e' | r]; [reflexivity |]. simpl in Hf. simpl.
      destruct (status r =? 200); [| reflexivity].
      destruct (json_body r) as [e' | v]; [reflexivity |].
      destruct v; try reflexivity. discriminate Hf. }
    rewrite Hacc.
    destruct (exc_is_timeout e), (exc_is_client_error e); do 2 eexists;
      (split; [reflexivity |]);
      (split; split; intros H; try discriminate H; destruct H as [_ H]; congruence).
  - destruct (no_fault _ Hf) as (r & -> & [[Hst [items Hj]] | [Hst [body Hb]]]).
    + rewrite (send_ok_object repr self args Hs' Hu r items Hst Hj).
      rewrite Hst, Hj. do 2 eexists. split; [reflexivity |].
      split; split; intros H; try reflexivity; try discriminate H.
      destruct H as [_ H]. congruence.
    + rewrite (send_bad_status repr self args Hs' Hu r body Hst Hb).
      apply Z.eqb_neq in Hst. rewrite Hst. do 2 eexists. split; [reflexivity |].
      split; split; intros H; try discriminate H.
      destruct H as [_ H]. congruence.
Qed.

Lemma send_to_dashboard_one_log_line_witness :
  accepted cog_ready (Responds ticket_response) = true /\
  exists msg,
    logs (trace (send_to_dashboard scalar_repr cog_ready hello_args
                   (Responds ticket_response)))
    = [(INFO, msg, false)].
Proof.
  split; [reflexivity |].
  destruct (send_to_dashboard_one_log_line scalar_repr cog_ready hello_args
              (Responds ticket_response)) as (lvl & msg & Hl & Hinfo & _).
  exists msg. rewrite <- (proj2 Hinfo eq_refl). exact Hl.
Defined.

Lemma send_transport_configured (repr : PyVal -> string) (self : DashboardWebhook)
    (args : DeliverArgs) (net : Behaviour) :
  session self <> None -> webhook_url self <> "" ->
  transport_calls (trace (send_to_dashboard repr self args net)) = [post_of self args].
Proof.
  intros Hs Hu.
  destruct (fault_of net) as [e |] eqn:Hf.
  - rewrite (send_fault repr self args Hs Hu net e Hf).
    unfold fault_log. destruct (classify e); reflexivity.
  - destruct (no_fault _ Hf) as (r & -> & [[Hst [items Hj]] | [Hst [body Hb]]]).
    + now rewrite (send_ok_object repr self args Hs Hu r items Hst Hj).
    + now rewrite (send_bad_status repr self args Hs Hu r body Hst Hb).
Qed.


(** ** The listener, end to end *)

Lemma on_message_trace (repr : PyVal -> string) (self : DashboardWebhook)
    (message : Message.t) (net : Behaviour) :
  discarded (bot self) message = false ->
  on_message repr self message net =
  ((trace (send_to_dashboard repr self (record_of message) net)
    ++ if accepted self net then [] else [forward_warning (Message.author message)])%list,
   Returned tt).
Proof.
  intros Hd. rewrite on_message_forwarded by assumption.
  pose proof (send_completion repr self (record_of message) net) as Hc.
  destruct (send_to_dashboard repr self (record_of message) net) as [t r].
  simpl in Hc. subst r. unfold trace. simpl fst.
  destruct (accepted self net); simpl; [rewrite app_nil_r |]; reflexivity.
Qed.

(** X5. A message the filter discards leaves nothing behind: no call,
    no request, no log line, no reply. *)
Theorem on_message_discarded_is_silent
    (repr : PyVal -> string) (self : DashboardWebhook) (message : Message.t)
    (net : Behaviour) :
  User.bot (Message.author message) = true \/
  isinstance_DMChannel (Message.channel message) = false \/
  Context.valid (Bot.get_context (bot self) message) = true \/
  (exists contains, Bot.blocked_users (bot self) = Some contains /\
                    contains (User.id (Message.author message)) = true) ->
  on_message repr self message net = ([], Returned tt).
Proof.
  intros H. apply on_message_discarded.
  unfold discarded, blocked_origin.
  destruct H as [H | [H | [H | (contains & Hb & H)]]].
  - rewrite H. reflexivity.
  - rewrite H. destruct (User.bot (Message.author message)); reflexivity.
  - rewrite H.
    destruct (User.bot (Message.author message)),
             (isinstance_DMChannel (Message.channel message)); reflexivity.
  - rewrite Hb, H.
    destruct (User.bot (Message.author message)),
             (isinstance_DMChannel (Message.channel message)),
             (Context.valid (Bot.get_context (bot self) message)); reflexivity.
Qed.

Lemma on_message_discarded_is_silent_witness :
  User.bot (Message.author dm_from_bot) = true /\
  on_message scalar_repr cog_ready dm_from_bot (Responds ticket_response)
  = ([], Returned tt).
Proof.
  split; [reflexivity |].
  apply on_message_discarded_is_silent. left. reflexivity.
Defined.



(** X7. For a message that passes the filter, a cog with a session and a
    URL makes exactly one request: a POST to that URL, timeout 10, with
    the secret in its header and a body of six keys built from the
    message. *)
Theorem on_message_request
    (repr : PyVal -> string) (self : DashboardWebhook) (message : Message.t)
    (net : Behaviour) :
  discarded (bot self) message = false ->
  session self <> None -> webhook_url self <> "" ->
  transport_calls (trace (on_message repr self message net)) =
  [ Post (webhook_url self)
      (PyDict
         [ ("discord_user_id", PyStr (str_int (User.id (Message.author message))));
           ("discord_username", PyStr (User.str (Message.author message)));
           ("content",
            PyStr (if (Message.content message =? "")%string
                   then "(No text content)" else Message.content message));
           ("discord_avatar_url",
            PyStr match User.avatar (Message.author message) with
                  | Some a =>
                      if (Asset.url a =? "")%string
                      then Asset.url (User.default_avatar (Message.author message))
                      else Asset.url a
                  | None => Asset.url (User.default_avatar (Message.author message))
                  end);
           ("discord_message_id", PyStr (str_int (Message.id message)));
           ("attachments", PyList (_format_attachments (Message.attachments message))) ])
      [ ("Content-Type", "application/json");
        ("X-Webhook-Secret", webhook_secret self) ]
      10 ].
Proof.
  intros Hd Hs Hu. rewrite on_message_trace by assumption.
  unfold trace at 1. simpl fst. unfold transport_calls. rewrite filter_app.
  fold (transport_calls (trace (send_to_dashboard repr self (record_of message) net))).
  rewrite send_transport_configured by assumption.
  assert (E : filter is_transport_call
                (if accepted self net then []
                 else [forward_warning (Message.author message)]) = [])
    by (destruct (accepted self net); reflexivity).
  rewrite E. unfold post_of, payload_of, record_of. cbn.
  rewrite get_avatar_url_value. unfold truthy_str.
  destruct (Message.content message =? "")%string; reflexivity.
Qed.

Lemma on_message_request_witness :
  discarded (bot cog_ready) dm_from_alice = false /\
  length (transport_calls
            (trace (on_message scalar_repr cog_ready dm_from_alice
                      (Raises asyncio_TimeoutError)))) = 1%nat.
Proof.
  split; [reflexivity |].
  rewrite (on_message_request scalar_repr cog_ready dm_from_alice
             (Raises asyncio_TimeoutError) eq_refl
             ltac:(intros E; vm_compute in E; discriminate E)
             ltac:(intros E; vm_compute in E; discriminate E)).
  reflexivity.
Defined.

(** X8. Every dict [_format_attachments] builds has a content type that
    is a non-empty string, whatever the attachment declares; and the
    size, URL and file name are passed on unchanged. *)
Theorem format_attachments_content_type_never_empty (atts : list Attachment.t) :
  Forall2 (fun att d =>
             exists items ct,
               d = PyDict items /\
               dict_lookup "content_type" items = Some (PyStr ct) /\ ct <> "" /\
               dict_lookup "url" items = Some (PyStr (Attachment.url att)) /\
               dict_lookup "filename" items = Some (PyStr (Attachment.filename att)) /\
               dict_lookup "size" items = Some (PyInt (Attachment.size att)))
          atts (_format_attachments atts).
Proof.
  induction atts as [| att atts IH]; simpl; constructor; [| exact IH].
  do 2 eexists. split; [reflexivity |]. cbn.
  split; [reflexivity |]. split; [| repeat split].
  unfold str_or. destruct (Attachment.content_type att) as [ct |].
  - destruct (truthy_str ct) eqn:E.
    + apply truthy_str_true. exact E.
    + intros H. discriminate H.
  - intros H. discriminate H.
Qed.

Lemma listener_content_not_empty (message : Message.t) :
  content (record_of message) <> "".
Proof.
  simpl. destruct (truthy_str (Message.content message)) eqn:E.
  - apply truthy_str_true. exact E.
  - intros H. discriminate H.
Qed.

(** X9. No record handed to [send_to_dashboard] has an empty text, and
    each has a message id: the listener puts the placeholder in place of
    an empty text, and the test command always prefixes its own. *)
Theorem content_is_never_empty
    (repr : PyVal -> string) (self : DashboardWebhook) (net : Behaviour) :
  (forall message : Message.t,
     Forall (fun args => content args <> "" /\ discord_message_id args <> None)
            (deliver_calls (trace (on_message repr self message net)))) /\
  (forall (ctx : Context.t) (message : option string),
     Forall (fun args => content args <> "" /\ discord_message_id args <> None)
            (deliver_calls (trace (test_dashboard repr self ctx message net)))).
Proof.
  split.
  - intros message. rewrite on_message_deliver_calls.
    destruct (discarded (bot self) message); constructor; [| constructor].
    split; [apply listener_content_not_empty | discriminate].
  - intros ctx message.
    destruct (test_dashboard_unfold repr self ctx message net) as [reply ->].
    unfold trace at 1. simpl fst.
    rewrite deliver_calls_app, send_deliver_calls. simpl.
    constructor; [| constructor]. split; discriminate.
Qed.

(** ** The test command, end to end *)

Lemma test_dashboard_trace (repr : PyVal -> string) (self : DashboardWebhook)
    (ctx : Context.t) (message : option string) (net : Behaviour) :
  test_dashboard repr self ctx message net =
  ((trace (send_to_dashboard repr self (test_record_of ctx message) net)
    ++ [SendText (if accepted self net then test_ok_reply else test_failed_reply)])%list,
   Returned tt).
Proof.
  unfold test_dashboard. fold (test_record_of ctx message).
  pose proof (send_completion repr self (test_record_of ctx message) net) as Hc.
  destruct (send_to_dashboard repr self (test_record_of ctx message) net) as [t r].
  simpl in Hc. subst r. unfold trace. simpl fst.
  destruct (accepted self net); reflexivity.
Qed.


(** X11. With a session and a URL the test command makes exactly one
    request: the same POST as the listener's, with [ (TEST)] after the
    caller's name, the id of the command message, and an empty list of
    attachments. *)
Theorem test_dashboard_request
    (repr : PyVal -> string) (self : DashboardWebhook) (ctx : Context.t)
    (message : option string) (net : Behaviour) :
  session self <> None -> webhook_url self <> "" ->
  transport_calls (trace (test_dashboard repr self ctx message net)) =
  [ Post (webhook_url self)
      (PyDict
         [ ("discord_user_id", PyStr (str_int (User.id (Context.author ctx))));
           ("discord_username", PyStr (User.str (Context.author ctx) ++ " (TEST)"));
           ("content",
            PyStr ("[TEST] " ++ match message with
                                | Some m => m
                                | None => "Test message from bot"
                                end));
           ("discord_avatar_url",
            PyStr match User.avatar (Context.author ctx) with
                  | Some a =>
                      if (Asset.url a =? "")%string
                      then Asset.url (User.default_avatar (Context.author ctx))
                      else Asset.url a
                  | None => Asset.url (User.default_avatar (Context.author ctx))
                  end);
           ("discord_message_id", PyStr (str_int (Message.id (Context.message ctx))));
           ("attachments", PyList []) ])
      [ ("Content-Type", "application/json");
        ("X-Webhook-Secret", webhook_secret self) ]
      10 ].
Proof.
  intros Hs Hu. rewrite test_dashboard_trace.
  unfold trace at 1. simpl fst. unfold transport_calls. rewrite filter_app.
  fold (transport_calls (trace (send_to_dashboard repr self (test_record_of ctx message) net))).
  rewrite send_transport_configured by assumption.
  unfold post_of, payload_of, test_record_of. cbn.
  rewrite get_avatar_url_value. reflexivity.
Qed.

Lemma test_dashboard_request_witness :
  length (transport_calls
            (trace (test_dashboard scalar_repr cog_ready admin_ctx (Some "hello")
                      (Responds ticket_response)))) = 1%nat.
Proof.
  rewrite (test_dashboard_request scalar_repr cog_ready admin_ctx (Some "hello")
             (Responds ticket_response)
             ltac:(intros E; vm_compute in E; discriminate E)
             ltac:(intros E; vm_compute in E; discriminate E)).
  reflexivity.
Defined.

(** ** Slicing *)

Lemma slice_to_code_points (n : nat) (s : string) :
  (code_points (slice_to n s) <= n)%nat.
Proof.
  revert n. induction s as [| c s IH]; intros n; simpl; [lia |].
  destruct (is_continuation c) eqn:E; simpl.
  - rewrite E. apply IH.
  - destruct n as [| k]; simpl; [lia |]. rewrite E. specialize (IH k). lia.
Qed.

Lemma slice_to_prefix (n : nat) (s : string) : prefix (slice_to n s) s = true.
Proof.
  revert n. induction s as [| c s IH]; intros n; simpl; [reflexivity |].
  destruct (is_continuation c); simpl.
  - destruct (ascii_dec c c); [apply IH | congruence].
  - destruct n as [| k]; simpl; [reflexivity |].
    destruct (ascii_dec c c); [apply IH | congruence].
Qed.

Lemma slice_to_all (n : nat) (s : string) :
  (code_points s <= n)%nat -> slice_to n s = s.
Proof.
  revert n. induction s as [| c s IH]; intros n H; simpl in *; [reflexivity |].
  destruct (is_continuation c).
  - f_equal. apply IH, H.
  - destruct n as [| k]; [lia |]. f_equal. apply IH. lia.
Qed.

(** ** Decimal ids *)

Lemma to_int_not_nil (n : Z) :
  Z.to_int n <> Decimal.Pos Decimal.Nil /\ Z.to_int n <> Decimal.Neg Decimal.Nil.
Proof.
  split; intros H; pose proof (f_equal Z.of_int H) as E;
    rewrite DecimalZ.of_to in E; simpl in E; subst n;
    vm_compute in H; discriminate H.
Qed.

Lemma parse_str_int (n : Z) : parse_int (str_int n) = Some n.
Proof.
  unfold parse_int, str_int.
  destruct (to_int_not_nil n) as [Hp Hn].
  rewrite NilZero.isi by assumption. simpl. now rewrite DecimalZ.of_to.
Qed.

Lemma str_int_inj (a b : Z) : str_int a = str_int b -> a = b.
Proof.
  intros H. apply (f_equal parse_int) in H. rewrite !parse_str_int in H.
  now injection H.
Qed.

(** ** [str.replace] without an occurrence *)

Lemma replace_without_occurrence (old new s : string) :
  occurs old s = false -> str_replace s old new = s.
Proof.
  unfold str_replace. induction s as [| c s IH]; intros H; [reflexivity |].
  cbn [occurs] in H. apply orb_false_iff in H as [Hp Hrest].
  cbn [replace_from]. rewrite Hp. f_equal. apply IH, Hrest.
Qed.

(** X12. Distinct ids are sent as distinct strings: the decimal string
    of an id reads back as that id, so two forwarded messages carry the
    same [discord_user_id] only when their authors have the same id, and
    the same [discord_message_id] only when they are the same message
    id. *)
Theorem forwarded_ids_are_faithful
    (repr : PyVal -> string) (self : DashboardWebhook) (net : Behaviour)
    (m1 m2 : Message.t) (a1 a2 : DeliverArgs) :
  deliver_calls (trace (on_message repr self m1 net)) = [a1] ->
  deliver_calls (trace (on_message repr self m2 net)) = [a2] ->
  parse_int (discord_user_id a1) = Some (User.id (Message.author m1)) /\
  (discord_user_id a1 = discord_user_id a2 ->
   User.id (Message.author m1) = User.id (Message.author m2)) /\
  (discord_message_id a1 = discord_message_id a2 -> Message.id m1 = Message.id m2).
Proof.
  rewrite !on_message_deliver_calls. intros H1 H2.
  destruct (discarded (bot self) m1); [discriminate H1 |].
  destruct (discarded (bot self) m2); [discriminate H2 |].
  injection H1 as <-. injection H2 as <-. simpl.
  split; [apply parse_str_int |]. split.
  - apply str_int_inj.
  - intros H. injection H as H. now apply str_int_inj.
Qed.

Lemma forwarded_ids_are_faithful_witness :
  deliver_calls (trace (on_message scalar_repr cog_ready dm_from_alice
                          (Responds ticket_response))) = [record_of dm_from_alice] /\
  parse_int "42" = Some 42.
Proof.
  split; [reflexivity |].
  exact (proj1 (forwarded_ids_are_faithful scalar_repr cog_ready
                  (Responds ticket_response) dm_from_alice dm_from_alice
                  (record_of dm_from_alice) (record_of dm_from_alice)
                  eq_refl eq_refl)).
Defined.

(** ** The status report, end to end *)


Lemma reported_status_field (self : DashboardWebhook) (ctx : Context.t) (now : Z)
    (net : Behaviour) (name : string) :
  exists extra,
    reported name (dashboard_status self ctx now net)
    = field_named name (fields (status_embed self now extra)) /\
    (webhook_url self <> "" ->
     forall c, session self = Some c ->
     extra = [connection_field (connection_test net)]).
Proof.
  unfold reported.
  destruct (string_dec (webhook_url self) "") as [Hu | Hu].
  { rewrite dashboard_status_without_url by assumption. eexists.
    split; [reflexivity | contradiction]. }
  destruct (session self) as [c |] eqn:Hs.
  - rewrite (dashboard_status_with_probe self ctx now net c Hu Hs). eexists.
    split; [reflexivity | reflexivity].
  - rewrite dashboard_status_without_session by assumption. eexists.
    split; [reflexivity | intros _ c H; discriminate H].
Qed.

(** X14. What the report shows is cut to 50 code points.  The URL field
    reads [Not configured] for an empty URL; otherwise it shows a prefix
    of the URL of at most 50 code points, the whole URL when it is that
    short, and always three dots after it, cut or not.  The failure of
    the probe is shown by a prefix of [str(e)] of at most 50 code
    points. *)
Theorem dashboard_status_truncates
    (self : DashboardWebhook) (ctx : Context.t) (now : Z) (net : Behaviour) :
  (webhook_url self = "" ->
   reported "Webhook URL" (dashboard_status self ctx now net) = Some "Not configured") /\
  (webhook_url self <> "" ->
   exists shown,
     reported "Webhook URL" (dashboard_status self ctx now net)
     = Some ("```" ++ shown ++ "...```") /\
     prefix shown (webhook_url self) = true /\
     (code_points shown <= 50)%nat /\
     ((code_points (webhook_url self) <= 50)%nat -> shown = webhook_url self)) /\
  (forall (c : ClientSession) (e : Exc),
     session self = Some c -> webhook_url self <> "" -> net = Raises e ->
     exists shown,
       reported "Connection Test" (dashboard_status self ctx now net)
       = Some ("❌ Failed: " ++ shown) /\
       prefix shown (exc_str e) = true /\
       (code_points shown <= 50)%nat).
Proof.
  split; [| split].
  - intros Hu. destruct (reported_status_field self ctx now net "Webhook URL")
      as (extra & -> & _).
    unfold status_embed. cbn. rewrite Hu. reflexivity.
  - intros Hu. destruct (reported_status_field self ctx now net "Webhook URL")
      as (extra & -> & _).
    apply truthy_str_true in Hu.
    exists (slice_to 50 (webhook_url self)).
    split; [unfold status_embed; cbn; rewrite Hu; reflexivity |].
    split; [apply slice_to_prefix |]. split; [apply slice_to_code_points |].
    apply slice_to_all.
  - intros c e Hs Hu ->.
    destruct (reported_status_field self ctx now (Raises e) "Connection Test")
      as (extra & -> & Hx).
    rewrite (Hx Hu c Hs).
    exists (slice_to 50 (exc_str e)).
    split; [reflexivity |].
    split; [apply slice_to_prefix | apply slice_to_code_points].
Qed.

Lemma dashboard_status_truncates_witness :
  webhook_url cog_ready <> "" /\
  exists shown,
    reported "Webhook URL" (dashboard_status cog_ready admin_ctx 0 (Responds ticket_response))
    = Some ("```" ++ shown ++ "...```") /\
    (code_points shown <= 50)%nat.
Proof.
  assert (Hu : webhook_url cog_ready <> "")
    by (intros E; vm_compute in E; discriminate E).
  split; [exact Hu |].
  destruct (proj1 (proj2 (dashboard_status_truncates cog_ready admin_ctx 0
                            (Responds ticket_response))) Hu)
    as (shown & H & _ & Hn & _).
  exists shown. split; assumption.
Defined.

(** ** The life cycle *)

Lemma reported_session_active (self : DashboardWebhook) (ctx : Context.t) (now : Z)
    (net : Behaviour) :
  reported "Session Active" (dashboard_status self ctx now net)
  = Some (if session_active (session self) then "✅ Yes" else "❌ No").
Proof.
  destruct (reported_status_field self ctx now net "Session Active") as (extra & -> & _).
  reflexivity.
Qed.

(** X15. The field Session Active follows the life cycle: it reads [No]
    before [cog_load], [Yes] after it, [No] again after [cog_unload], and
    [Yes] after a second [cog_load]; loading and unloading leave the URL
    and the secret as they were. *)
Theorem session_active_follows_life_cycle
    (self : DashboardWebhook) (ctx : Context.t) (now : Z) (net : Behaviour)
    (bot : Bot.t) :
  reported "Session Active" (dashboard_status (__init__ bot) ctx now net)
    = Some "❌ No" /\
  reported "Session Active" (dashboard_status (fst (cog_load self)) ctx now net)
    = Some "✅ Yes" /\
  reported "Session Active"
    (dashboard_status (fst (cog_unload (fst (cog_load self)))) ctx now net)
    = Some "❌ No" /\
  reported "Session Active"
    (dashboard_status (fst (cog_load (fst (cog_unload (fst (cog_load self)))))) ctx now net)
    = Some "✅ Yes" /\
  webhook_url (fst (cog_unload (fst (cog_load self)))) = webhook_url self /\
  webhook_secret (fst (cog_unload (fst (cog_load self)))) = webhook_secret self.
Proof.
  rewrite !reported_session_active. repeat split.
Qed.

(** X16. [cog_unload] closes the session but leaves it in place, and the
    guard of [send_to_dashboard] only looks for a missing session: after
    unloading a loaded cog that has a URL, a call still hands its request
    to the closed session, and still returns without raising.  A cog that
    was never loaded is left unchanged by [cog_unload]. *)
Theorem send_after_unload_still_requests
    (repr : PyVal -> string) (self : DashboardWebhook) (args : DeliverArgs)
    (net : Behaviour) :
  (webhook_url self <> "" ->
   session (fst (cog_unload (fst (cog_load self)))) = Some {| closed := true |} /\
   transport_calls
     (trace (send_to_dashboard repr (fst (cog_unload (fst (cog_load self)))) args net))
   = [Post (webhook_url self) (payload_of args) (headers_of self) 10] /\
   completion (send_to_dashboard repr (fst (cog_unload (fst (cog_load self)))) args net)
   = Returned (accepted (fst (cog_load self)) net)) /\
  (session self = None -> fst (cog_unload self) = self).
Proof.
  split.
  - intros Hu. split; [reflexivity |]. split.
    + rewrite send_transport_configured; [reflexivity | discriminate | exact Hu].
    + rewrite send_completion. reflexivity.
  - intros Hs. unfold cog_unload. rewrite Hs. reflexivity.
Qed.

Lemma send_after_unload_still_requests_witness :
  webhook_url cog_fresh <> "" /\
  transport_calls
    (trace (send_to_dashboard scalar_repr (fst (cog_unload (fst (cog_load cog_fresh))))
              hello_args (Raises (RuntimeError "Session is closed"))))
  = [Post default_webhook_url (payload_of hello_args) (headers_of cog_fresh) 10] /\
  fst (cog_unload cog_fresh) = cog_fresh.
Proof.
  assert (Hu : webhook_url cog_fresh <> "")
    by (intros E; vm_compute in E; discriminate E).
  split; [exact Hu |].
  destruct (send_after_unload_still_requests scalar_repr cog_fresh hello_args
              (Raises (RuntimeError "Session is closed"))) as [H1 H2].
  split; [exact (proj1 (proj2 (H1 Hu))) | exact (H2 eq_refl)].
Defined.

(** X17. Without a session nothing is ever requested: a call, the
    listener, the test command and the status command all make no
    request; the test command answers with the failure text and the
    status command, when a URL is set, shows the failed attribute lookup
    as the result of the probe.  This is the state [__init__] leaves the
    cog in. *)
Theorem no_session_no_request
    (repr : PyVal -> string) (self : DashboardWebhook) (net : Behaviour) :
  session self = None ->
  (forall args, transport_calls (trace (send_to_dashboard repr self args net)) = []) /\
  (forall message, transport_calls (trace (on_message repr self message net)) = []) /\
  (forall ctx message,
     transport_calls (trace (test_dashboard repr self ctx message net)) = [] /\
     replies (trace (test_dashboard repr self ctx message net))
     = [SendText "❌ Failed to send test message. Check bot logs for details."]) /\
  (forall ctx now,
     transport_calls (trace (dashboard_status self ctx now net)) = [] /\
     (webhook_url self <> "" ->
      reported "Connection Test" (dashboard_status self ctx now net)
      = Some "❌ Failed: 'NoneType' object has no attribute 'get'")).
Proof.
  intros Hs.
  assert (Hacc : accepted self net = false) by (unfold accepted; now rewrite Hs).
  assert (Hsend : forall args,
             transport_calls (trace (send_to_dashboard repr self args net)) = [])
    by (intros args; now rewrite send_without_session).
  split; [exact Hsend |]. split; [| split].
  - intros message. destruct (discarded (bot self) message) eqn:Hd.
    + now rewrite on_message_discarded.
    + rewrite on_message_trace by assumption. unfold trace at 1. simpl fst.
      unfold transport_calls. rewrite filter_app.
      fold (transport_calls (trace (send_to_dashboard repr self (record_of message) net))).
      rewrite Hsend, Hacc. reflexivity.
  - intros ctx message. rewrite test_dashboard_trace. unfold trace. simpl fst.
    rewrite send_without_session by assumption. rewrite Hacc. split; reflexivity.
  - intros ctx now. destruct (string_dec (webhook_url self) "") as [Hu | Hu].
    + rewrite dashboard_status_without_url by assumption.
      split; [reflexivity | contradiction].
    + rewrite dashboard_status_without_session by assumption.
      split; [reflexivity | intros _; reflexivity].
Qed.

Lemma no_session_no_request_witness :
  session (__init__ host) = None /\
  transport_calls
    (trace (on_message scalar_repr (__init__ host) dm_from_alice (Responds ticket_response)))
  = [].
Proof.
  split; [reflexivity |].
  exact (proj1 (proj2 (no_session_no_request scalar_repr (__init__ host)
                         (Responds ticket_response) eq_refl)) dm_from_alice).
Defined.

(** X18. An endpoint that does not contain [/discord-modmail-webhook] is
    probed at its own address: the status command sends its GET to the
    URL the messages are posted to. *)
Theorem dashboard_status_probes_endpoint_itself
    (self : DashboardWebhook) (ctx : Context.t) (now : Z) (net : Behaviour)
    (c : ClientSession) :
  session self = Some c -> webhook_url self <> "" ->
  occurs "/discord-modmail-webhook" (webhook_url self) = false ->
  transport_calls (trace (dashboard_status self ctx now net))
  = [Get (webhook_url self) 5].
Proof.
  intros Hs Hu Ho. rewrite (dashboard_status_with_probe self ctx now net c Hu Hs).
  unfold relay_suffix. rewrite replace_without_occurrence by exact Ho. reflexivity.
Qed.

Lemma dashboard_status_probes_endpoint_itself_witness :
  occurs "/discord-modmail-webhook" (webhook_url cog_with_other_url) = false /\
  transport_calls
    (trace (dashboard_status cog_with_other_url admin_ctx 0 (Responds ticket_response)))
  = [Get "https://example.com/hook" 5].
Proof.
  split; [reflexivity |].
  exact (dashboard_status_probes_endpoint_itself cog_with_other_url admin_ctx 0
           (Responds ticket_response) {| closed := false |} eq_refl
           ltac:(intros E; vm_compute in E; discriminate E) eq_refl).
Defined.
